(** * HLL union benchmark analysis: aggregation, comparison and summary

    A shallow embedding of the analysis scripts of the repository:

    - [union_plot.py]: the pandas pipeline that aggregates the raw trial
      tables ([union_stats], [exact_stats]), joins them ([comparison_df]),
      derives the comparative metrics and picks the best configurations;
    - [plot_results.py]: [load_data], [parse_pgbench_summary] and [main];
    - [plot_results_cardinality.py]: the loading step of [main] and the
      plots that follow it.

    pandas float columns are IEEE-754 binary64 values; they are modelled by
    the executable specification [spec_float] of the Rocq library at
    precision 53 and maximal exponent 1024, so that every definition below
    evaluates on concrete tables. *)

From Stdlib Require Import ZArith List Bool Lia String Ascii.
From Stdlib Require Import Sorting.Sorted Sorting.Permutation.
From Stdlib Require Import Floats.SpecFloat.
Import ListNotations.
Open Scope Z_scope.

(** ** binary64 arithmetic *)

Module F64.

Definition prec : Z := 53.
Definition emax : Z := 1024.

Definition float64 : Type := spec_float.

Definition nan : float64 := S754_nan.
Definition pinf : float64 := S754_infinity false.

Definition add : float64 -> float64 -> float64 := SFadd prec emax.
Definition sub : float64 -> float64 -> float64 := SFsub prec emax.
Definition mul : float64 -> float64 -> float64 := SFmul prec emax.
Definition div : float64 -> float64 -> float64 := SFdiv prec emax.
Definition sqrt : float64 -> float64 := SFsqrt prec emax.
Definition abs : float64 -> float64 := SFabs.
Definition ltb : float64 -> float64 -> bool := SFltb.
Definition leb : float64 -> float64 -> bool := SFleb.
Definition eqb : float64 -> float64 -> bool := SFeqb.

(** Conversion of an integer (an int64 cell, a count, an integer
    literal) to the nearest binary64 value. *)
Definition of_Z (n : Z) : float64 := binary_normalize prec emax n 0 false.

Fixpoint pow10 (k : nat) : positive :=
  match k with
  | O => 1%positive
  | S k' => (10 * pow10 k')%positive
  end.

(** The binary64 value nearest to [n / 10^k]: what Python's [float]
    gives for the decimal text with integer digits and [k] fraction
    digits whose digits read [n].  [SFdiv] divides the two integers
    exactly and rounds once. *)
Definition of_decimal (n : N) (k : nat) : float64 :=
  match n with
  | N0 => S754_zero false
  | Npos p => div (S754_finite false p 0)
                  (S754_finite false (pow10 k) 0)
  end.

Definition is_nan (x : float64) : bool :=
  match x with S754_nan => true | _ => false end.

Definition is_inf (x : float64) : bool :=
  match x with S754_infinity _ => true | _ => false end.

Definition is_zero (x : float64) : bool :=
  match x with S754_zero _ => true | _ => false end.

Definition is_finite (x : float64) : bool :=
  match x with S754_zero _ | S754_finite _ _ _ => true | _ => false end.

(** Sign bit clear and not NaN: [+0], a positive finite value or [+inf]. *)
Definition is_nonneg (x : float64) : bool :=
  match x with
  | S754_zero false | S754_finite false _ _ | S754_infinity false => true
  | _ => false
  end.

End F64.

(** ** pandas reductions over one column of a group *)

Module Pandas.

(** [skipna=True], the default of every reduction used by the scripts. *)
Definition dropna (xs : list F64.float64) : list F64.float64 :=
  filter (fun x => negb (F64.is_nan x)) xs.

Definition sum (xs : list F64.float64) : F64.float64 :=
  fold_left F64.add xs (S754_zero false).

Definition count (xs : list F64.float64) : Z :=
  Z.of_nat (List.length (dropna xs)).

(** ['mean']: sum of the non-missing values over their count; NaN when
    there is none.  The values are added from left to right; pandas adds
    them with a compensation term, which gives the same sum for up to two
    values and may change the last bits for more. *)
Definition mean (xs : list F64.float64) : F64.float64 :=
  match dropna xs with
  | [] => F64.nan
  | ys => F64.div (sum ys) (F64.of_Z (count xs))
  end.

Definition sq_dev (m x : F64.float64) : F64.float64 :=
  F64.mul (F64.sub x m) (F64.sub x m).

(** ['std']: sample standard deviation, [ddof = 1].  pandas gives NaN
    when the number of non-missing values does not exceed [ddof];
    otherwise the value is the square root of the sum of the squared
    deviations from the mean over the count minus one. *)
Definition std (xs : list F64.float64) : F64.float64 :=
  let ys := dropna xs in
  if count xs <=? 1 then F64.nan
  else F64.sqrt (F64.div (sum (map (sq_dev (mean xs)) ys))
                         (F64.of_Z (count xs - 1))).

(** ['max'] of an int64 column of a group (a group is never empty). *)
Definition max (xs : list Z) : Z :=
  match xs with
  | [] => 0
  | x :: xs' => fold_left Z.max xs' x
  end.

(** [groupby(keys)], with the defaults [sort=True]: one group per distinct
    key, groups in ascending key order, rows of a group in table order. *)
Section GroupBy.

Context {K R : Type}.
Variable key : R -> K.
Variable kltb : K -> K -> bool.
Variable keqb : K -> K -> bool.

Fixpoint insert_key (k : K) (ks : list K) : list K :=
  match ks with
  | [] => [k]
  | k' :: t =>
      if kltb k k' then k :: ks
      else if keqb k k' then ks
      else k' :: insert_key k t
  end.

Definition group_keys (rows : list R) : list K :=
  fold_right insert_key [] (map key rows).

Definition group_rows (rows : list R) (k : K) : list R :=
  filter (fun r => keqb (key r) k) rows.

Definition groupby (rows : list R) : list (K * list R) :=
  map (fun k => (k, group_rows rows k)) (group_keys rows).

End GroupBy.

(** numpy's [argmax] / [argmin] on an array without NaN: the position of
    the first occurrence of the extreme value.  [better x best] says that
    [x] replaces the candidate [best]. *)
Fixpoint arg_first (better : F64.float64 -> F64.float64 -> bool)
    (xs : list F64.float64) (i : nat) (best : option (nat * F64.float64))
    : option (nat * F64.float64) :=
  match xs with
  | [] => best
  | x :: t =>
      let best' :=
        match best with
        | None => Some (i, x)
        | Some (_, b) => if better x b then Some (i, x) else best
        end in
      arg_first better t (S i) best'
  end.

Definition ninf : F64.float64 := S754_infinity true.

(** A NaN read as [fill], any other value as itself. *)
Definition nan_as (fill x : F64.float64) : F64.float64 :=
  if F64.is_nan x then fill else x.

(** [Series.idxmax()] / [Series.idxmin()] with [skipna=True] on a default
    integer index, as pandas computes them ([nanargmax] / [nanargmin]):
    every NaN is replaced by [-inf] (by [+inf] for the minimum), then the
    position of the first extreme value is taken.  [None] stands for the
    exception raised when the series is empty or holds only NaN. *)
Definition idx_extreme (better : F64.float64 -> F64.float64 -> bool)
    (fill : F64.float64) (xs : list F64.float64) : option nat :=
  if forallb F64.is_nan xs then None
  else option_map fst (arg_first better (map (nan_as fill) xs) O None).

Definition idxmax (xs : list F64.float64) : option nat :=
  idx_extreme (fun x best => F64.ltb best x) ninf xs.

Definition idxmin (xs : list F64.float64) : option nat :=
  idx_extreme (fun x best => F64.ltb x best) F64.pinf xs.

(** What the scan of [arg_first] knows after the values [seen]: the
    candidate is one of them, is beaten by none of them and beats those
    that come before it. *)
Definition scanned (better : F64.float64 -> F64.float64 -> bool)
    (seen : list F64.float64) (best : option (nat * F64.float64)) : Prop :=
  match best with
  | None => seen = []
  | Some (i, b) =>
      nth_error seen i = Some b
      /\ forall j y, nth_error seen j = Some y ->
           better y b = false /\ ((j < i)%nat -> better b y = true)
  end.

End Pandas.

(** ** union_plot.py: the tables *)

(** A row of [union_detailed.csv] ([union_df]). *)
Module UnionDf.
Record row : Type := mk {
  precision : Z;
  num_days : Z;
  estimated_count : F64.float64;
  query_time_ms : F64.float64;
  total_sketch_size_bytes : Z
}.
End UnionDf.

(** A row of [exact_detailed.csv] ([exact_df]). *)
Module ExactDf.
Record row : Type := mk {
  num_days : Z;
  exact_count : F64.float64;
  query_time_ms : F64.float64
}.
End ExactDf.

Module UnionStats.
Record row : Type := mk {
  precision : Z;
  num_days : Z;
  avg_estimate : F64.float64;
  union_time_ms : F64.float64;
  union_stddev_ms : F64.float64;
  total_sketch_bytes : Z
}.
Definition key (r : row) : Z * Z := (precision r, num_days r).
End UnionStats.

Module ExactStats.
Record row : Type := mk {
  num_days : Z;
  exact_count : F64.float64;
  exact_time_ms : F64.float64;
  exact_stddev_ms : F64.float64
}.
End ExactStats.

(** A row of [comparison_df]: the columns of both aggregated tables (the
    join column once) followed by the derived columns. *)
Module Comparison.
Record row : Type := mk {
  precision : Z;
  num_days : Z;
  avg_estimate : F64.float64;
  union_time_ms : F64.float64;
  union_stddev_ms : F64.float64;
  total_sketch_bytes : Z;
  exact_count : F64.float64;
  exact_time_ms : F64.float64;
  exact_stddev_ms : F64.float64;
  error_absolute : F64.float64;
  error_pct : F64.float64;
  speedup_factor : F64.float64;
  sketch_size_kb : F64.float64;
  efficiency_score : F64.float64
}.
Definition key (r : row) : Z * Z := (precision r, num_days r).
End Comparison.

(** ** union_plot.py: aggregation, join and derived metrics *)

Module UnionPlot.

(** Ascending order of the key tuple [(precision, num_days)]. *)
Definition pair_ltb (a b : Z * Z) : bool :=
  (fst a <? fst b) || ((fst a =? fst b) && (snd a <? snd b)).

Definition pair_eqb (a b : Z * Z) : bool :=
  (fst a =? fst b) && (snd a =? snd b).

Definition pair_lt (a b : Z * Z) : Prop :=
  fst a < fst b \/ (fst a = fst b /\ snd a < snd b).

Definition union_key (r : UnionDf.row) : Z * Z :=
  (UnionDf.precision r, UnionDf.num_days r).

Definition union_group (union_df : list UnionDf.row) (k : Z * Z)
  : list UnionDf.row :=
  Pandas.group_rows union_key pair_eqb union_df k.

Definition exact_group (exact_df : list ExactDf.row) (d : Z)
  : list ExactDf.row :=
  Pandas.group_rows ExactDf.num_days Z.eqb exact_df d.

Definition agg_union (g : (Z * Z) * list UnionDf.row) : UnionStats.row :=
  let '(k, rows) := g in
  {| UnionStats.precision := fst k;
     UnionStats.num_days := snd k;
     UnionStats.avg_estimate :=
       Pandas.mean (map UnionDf.estimated_count rows);
     UnionStats.union_time_ms :=
       Pandas.mean (map UnionDf.query_time_ms rows);
     UnionStats.union_stddev_ms :=
       Pandas.std (map UnionDf.query_time_ms rows);
     UnionStats.total_sketch_bytes :=
       Pandas.max (map UnionDf.total_sketch_size_bytes rows) |}.

(** [union_df.groupby(['precision', 'num_days'], as_index=False).agg(...)] *)
Definition union_stats (union_df : list UnionDf.row) : list UnionStats.row :=
  map agg_union (Pandas.groupby union_key pair_ltb pair_eqb union_df).

Definition agg_exact (g : Z * list ExactDf.row) : ExactStats.row :=
  let '(d, rows) := g in
  {| ExactStats.num_days := d;
     ExactStats.exact_count := Pandas.mean (map ExactDf.exact_count rows);
     ExactStats.exact_time_ms :=
       Pandas.mean (map ExactDf.query_time_ms rows);
     ExactStats.exact_stddev_ms :=
       Pandas.std (map ExactDf.query_time_ms rows) |}.

(** [exact_df.groupby('num_days', as_index=False).agg(...)] *)
Definition exact_stats (exact_df : list ExactDf.row) : list ExactStats.row :=
  map agg_exact (Pandas.groupby ExactDf.num_days Z.ltb Z.eqb exact_df).

(** The derived columns, computed from the joined columns in the order of
    the script. *)
Definition derive (u : UnionStats.row) (e : ExactStats.row)
  : Comparison.row :=
  let error_absolute :=
    F64.abs (F64.sub (UnionStats.avg_estimate u) (ExactStats.exact_count e)) in
  let error_pct :=
    F64.mul (F64.div error_absolute (ExactStats.exact_count e))
            (F64.of_Z 100) in
  let speedup_factor :=
    F64.div (ExactStats.exact_time_ms e) (UnionStats.union_time_ms u) in
  let sketch_size_kb :=
    F64.div (F64.of_Z (UnionStats.total_sketch_bytes u)) (F64.of_Z 1024) in
  let efficiency_score := F64.div speedup_factor error_pct in
  {| Comparison.precision := UnionStats.precision u;
     Comparison.num_days := UnionStats.num_days u;
     Comparison.avg_estimate := UnionStats.avg_estimate u;
     Comparison.union_time_ms := UnionStats.union_time_ms u;
     Comparison.union_stddev_ms := UnionStats.union_stddev_ms u;
     Comparison.total_sketch_bytes := UnionStats.total_sketch_bytes u;
     Comparison.exact_count := ExactStats.exact_count e;
     Comparison.exact_time_ms := ExactStats.exact_time_ms e;
     Comparison.exact_stddev_ms := ExactStats.exact_stddev_ms e;
     Comparison.error_absolute := error_absolute;
     Comparison.error_pct := error_pct;
     Comparison.speedup_factor := speedup_factor;
     Comparison.sketch_size_kb := sketch_size_kb;
     Comparison.efficiency_score := efficiency_score |}.

(** [left.merge(right, on='num_days')]: the default inner join.  The
    rows follow the order of the left table, each paired with the right
    rows of the same [num_days]: the documented order of an inner join,
    which pandas produces from version 2.2 on. *)
Definition merge (left : list UnionStats.row) (right : list ExactStats.row)
  : list (UnionStats.row * ExactStats.row) :=
  flat_map
    (fun u =>
       map (fun e => (u, e))
           (filter (fun e => ExactStats.num_days e =? UnionStats.num_days u)
                   right))
    left.

Definition comparison_df (union_df : list UnionDf.row)
    (exact_df : list ExactDf.row) : list Comparison.row :=
  map (fun ue => derive (fst ue) (snd ue))
      (merge (union_stats union_df) (exact_stats exact_df)).

(** [comparison_df.loc[comparison_df[col].idxmax()]]; [None] when the
    lookup raises. *)
Definition loc_idx (df : list Comparison.row) (i : option nat)
  : option Comparison.row :=
  match i with
  | Some n => nth_error df n
  | None => None
  end.

Definition best_speed (df : list Comparison.row) : option Comparison.row :=
  loc_idx df (Pandas.idxmax (map Comparison.speedup_factor df)).

Definition best_accuracy (df : list Comparison.row) : option Comparison.row :=
  loc_idx df (Pandas.idxmin (map Comparison.error_pct df)).

Definition best_efficiency (df : list Comparison.row)
  : option Comparison.row :=
  loc_idx df (Pandas.idxmax (map Comparison.efficiency_score df)).

(** [r] is the first row of [df], in the order of the key
    [(precision, num_days)], that reaches the extreme of [metric] when a
    NaN is read as [fill]: no row has a value that beats the one of [r],
    and [r] beats the value of every row with a smaller key.  Hence [r]
    has a NaN only when no other value beats [fill].  [beats x b] says
    that [x] is preferred to [b]. *)
Definition first_extreme (beats : F64.float64 -> F64.float64 -> bool)
    (fill : F64.float64) (metric : Comparison.row -> F64.float64)
    (df : list Comparison.row) (r : Comparison.row) : Prop :=
  In r df
  /\ (forall r', In r' df ->
        beats (Pandas.nan_as fill (metric r'))
              (Pandas.nan_as fill (metric r)) = false
        /\ (pair_lt (Comparison.key r') (Comparison.key r) ->
            beats (Pandas.nan_as fill (metric r))
                  (Pandas.nan_as fill (metric r')) = true))
  /\ (forall r', In r' df -> F64.is_nan (metric r') = false ->
        beats (metric r') fill = true -> F64.is_nan (metric r) = false).

Definition larger (x b : F64.float64) : bool := F64.ltb b x.
Definition smaller (x b : F64.float64) : bool := F64.ltb x b.

End UnionPlot.

(** The module-level loading step of the script and what follows it.
    [tables_dir] holds, for each of the two input files, its table when
    the file exists.  A missing file makes [pd.read_csv] raise
    [FileNotFoundError], which the script answers with [exit(1)]. *)
Module UnionScript.

Record tables_dir : Type := mk_tables {
  union_detailed_csv : option (list UnionDf.row);
  exact_detailed_csv : option (list ExactDf.row)
}.

Inductive outcome : Type :=
| Exit (status : Z)
| Completed (comparison_csv : list Comparison.row).

Definition load (d : tables_dir)
  : Z + (list UnionDf.row * list ExactDf.row) :=
  match union_detailed_csv d with
  | None => inl 1
  | Some union_df =>
      match exact_detailed_csv d with
      | None => inl 1
      | Some exact_df => inr (union_df, exact_df)
      end
  end.

Definition run (d : tables_dir) : outcome :=
  match load d with
  | inl status => Exit status
  | inr (union_df, exact_df) =>
      Completed (UnionPlot.comparison_df union_df exact_df)
  end.

End UnionScript.

(** ** plot_results.py *)

Module PlotResults.

Open Scope string_scope.

(** The text of a file as Python reads it: a [str], here the list of its
    Unicode code points. *)
Definition text : Type := list N.

(** The code points of an ASCII literal. *)
Definition of_string (s : string) : text :=
  map N_of_ascii (list_ascii_of_string s).

(** What the script finds under a file name of the results directory. *)
Inductive entry : Type :=
| Absent
| ReadFails
| Text (content : text).

Definition directory : Type := string -> entry.

(** *** [load_data] *)

Section LoadData.

Variable DataFrame : Type.
(** [pd.read_csv] on the text of a file; [None] when it raises. *)
Variable read_csv : text -> option DataFrame.

Definition load_data (base_path : directory) (filename : string)
  : option DataFrame :=
  match base_path filename with
  | Absent => None
  | ReadFails => None
  | Text content => read_csv content
  end.

End LoadData.

(** *** [parse_pgbench_summary] *)

Section Parse.

(** The Unicode database beyond ASCII: the decimal value of a code point
    that is a decimal digit (category Nd), [None] for any other code
    point.  Both [\d] of [re] and [float] go by it. *)
Variable nd_value : N -> option N.

Definition decimal (c : N) : option N :=
  (if c <? 128 then
     if (48 <=? c) && (c <=? 57) then Some (c - 48) else None
   else nd_value c)%N.

Definition is_digit (c : N) : bool :=
  match decimal c with
  | Some _ => true
  | None => false
  end.

(** The longest run of digits at the head of [s], and what follows it. *)
Fixpoint span_digits (s : text) : text * text :=
  match s with
  | [] => ([], [])
  | c :: t =>
      if is_digit c then
        let '(ds, rest) := span_digits t in (c :: ds, rest)
      else ([], s)
  end.

Fixpoint drop_prefix (p s : text) : option text :=
  match p with
  | [] => Some s
  | a :: p' =>
      match s with
      | [] => None
      | b :: s' => if (a =? b)%N then drop_prefix p' s' else None
      end
  end.

Definition is_empty (s : text) : bool :=
  match s with [] => true | _ => false end.

(** The full stop. *)
Definition dot : N := 46%N.

(** A match of [before (\d+\.\d+) after] starting at the head of [s];
    the result is the text of group 1.  Each [\d+] is followed by a
    character that is not a digit, so the greedy run is the only
    candidate. *)
Definition match_here (before after s : text) : option text :=
  match drop_prefix before s with
  | None => None
  | Some s1 =>
      let '(int_part, s2) := span_digits s1 in
      if is_empty int_part then None
      else
        match s2 with
        | c :: s3 =>
            if (c =? dot)%N then
              let '(frac_part, s4) := span_digits s3 in
              if is_empty frac_part then None
              else
                match drop_prefix after s4 with
                | Some _ => Some (int_part ++ dot :: frac_part)%list
                | None => None
                end
            else None
        | [] => None
        end
  end.

(** [re.search]: the leftmost match. *)
Fixpoint re_search (before after s : text) : option text :=
  match match_here before after s with
  | Some g => Some g
  | None =>
      match s with
      | [] => None
      | _ :: t => re_search before after t
      end
  end.

Definition digit_value (c : N) : N :=
  match decimal c with
  | Some v => v
  | None => 0%N
  end.

Fixpoint digits_value (acc : N) (s : text) : N :=
  match s with
  | [] => acc
  | c :: t => digits_value (10 * acc + digit_value c)%N t
  end.

(** [float(text)] on the texts that group 1 of the two patterns can hold,
    digits, a full stop and digits: the nearest binary64 value.  The
    script passes no other text; for one the model answers [None]. *)
Definition py_float (t : text) : option F64.float64 :=
  let '(int_part, s2) := span_digits t in
  if is_empty int_part then None
  else
    match s2 with
    | c :: s3 =>
        if (c =? dot)%N then
          let '(frac_part, s4) := span_digits s3 in
          if is_empty frac_part || negb (is_empty s4) then None
          else Some (F64.of_decimal (digits_value 0 (int_part ++ frac_part)%list)
                                    (List.length frac_part))
        else None
    | [] => None
    end.

Definition tps_before : text := of_string "tps = ".
Definition tps_after : text := of_string " (excluding".
Definition lat_before : text := of_string "latency average = ".
Definition lat_after : text := of_string " ms".

(** The returned dictionary, in insertion order; [None] is Python's
    [None].  Every exception of the [try] block ends in [return None]. *)
Definition parse_pgbench_summary (base_path : directory) (filename : string)
  : option (list (string * F64.float64)) :=
  match base_path filename with
  | Absent => None
  | ReadFails => None
  | Text content =>
      match re_search tps_before tps_after content,
            re_search lat_before lat_after content with
      | Some tps_text, Some lat_text =>
          match py_float tps_text, py_float lat_text with
          | Some tps, Some latency =>
              Some [("tps", tps); ("latency", latency)]
          | _, _ => None
          end
      | _, _ => None
      end
  end.

End Parse.

(** *** [main] and the plotting steps

    A plotting step either runs through or raises; either way it has
    saved some image files.  [main] has no [try]: when a step raises,
    [main] raises too and the steps after it are not run. *)

Inductive outcome : Type :=
| Done (saved : list string)
| Raised (saved : list string).

Definition saved_files (o : outcome) : list string :=
  match o with
  | Done files => files
  | Raised files => files
  end.

(** One statement after the other. *)
Definition and_then (first next : outcome) : outcome :=
  match first with
  | Raised files => Raised files
  | Done files =>
      match next with
      | Done more => Done (files ++ more)%list
      | Raised more => Raised (files ++ more)%list
      end
  end.

(** pandas, seaborn and matplotlib at work inside a plotting step:
    whether the statements that lead to one saved image run through on
    the data they are given (a frame without the column asked for, for
    one, makes them raise). *)
Record rendering (DataFrame : Type) : Type := mk_rendering {
  bulk_speed_ok : DataFrame -> DataFrame -> bool;
  bulk_error_ok : DataFrame -> DataFrame -> bool;
  storage_ok : DataFrame -> bool;
  hashing_ok : DataFrame -> bool;
  insert_tps_ok : list (string * list (string * F64.float64)) -> bool;
  read_latency_ok : list (string * list (string * F64.float64)) -> bool
}.

(** [needle] occurs somewhere in [s]. *)
Fixpoint contains (needle s : string) : bool :=
  if prefix needle s then true
  else match s with
       | EmptyString => false
       | String _ t => contains needle t
       end.

Section Main.

Variable DataFrame : Type.
Variable read_csv : text -> option DataFrame.
Variable nd_value : N -> option N.
Variable render : rendering DataFrame.

(** One image: the statements before [savefig] and the file saved. *)
Definition image (ok : bool) (file : string) : outcome :=
  if ok then Done [file] else Raised [].

Definition plot_bulk_agg (df_exact df_hll : option DataFrame) : outcome :=
  match df_exact, df_hll with
  | Some e, Some h =>
      and_then (image (bulk_speed_ok _ render e h) "1_bulk_agg_speed.png")
               (image (bulk_error_ok _ render e h) "2_bulk_agg_error.png")
  | _, _ => Done []
  end.

Definition plot_storage (df_storage : option DataFrame) : outcome :=
  match df_storage with
  | Some s => image (storage_ok _ render s) "3_storage_footprint.png"
  | None => Done []
  end.

Definition plot_hashing (df_hashing : option DataFrame) : outcome :=
  match df_hashing with
  | Some h => image (hashing_ok _ render h) "4_hashing_overhead.png"
  | None => Done []
  end.

Definition plot_pgbench_results
    (pgbench_data : list (string * list (string * F64.float64)))
  : outcome :=
  match pgbench_data with
  | [] => Done []
  | _ =>
      and_then
        (if existsb (fun t => contains "insert" (fst t)) pgbench_data
         then image (insert_tps_ok _ render pgbench_data) "5_insert_tps.png"
         else Done [])
        (if existsb (fun t => contains "read" (fst t)) pgbench_data
         then image (read_latency_ok _ render pgbench_data)
                    "6_read_latency.png"
         else Done [])
  end.

Definition test_files : list (string * string) :=
  [("low_card_insert", "04_summary_low_card_insert.txt");
   ("high_card_insert", "05_summary_high_card_insert.txt");
   ("read_cardinality", "06_summary_read_cardinality.txt");
   ("read_union", "07_summary_read_union.txt")].

Definition pgbench_results (input_path : directory)
  : list (string * list (string * F64.float64)) :=
  flat_map
    (fun tf =>
       match parse_pgbench_summary nd_value input_path (snd tf) with
       | Some parsed => [(fst tf, parsed)]
       | None => []
       end)
    test_files.

(** [main] on an input directory that exists. *)
Definition main (input_path : directory) : outcome :=
  let df_bulk_exact :=
    load_data DataFrame read_csv input_path "01_results_bulk_exact.csv" in
  let df_bulk_hll :=
    load_data DataFrame read_csv input_path "01_results_bulk_hll.csv" in
  let df_storage :=
    load_data DataFrame read_csv input_path "02_results_storage.csv" in
  let df_hashing :=
    load_data DataFrame read_csv input_path "03_results_hashing.csv" in
  and_then (plot_bulk_agg df_bulk_exact df_bulk_hll)
    (and_then (plot_storage df_storage)
       (and_then (plot_hashing df_hashing)
          (plot_pgbench_results (pgbench_results input_path)))).

End Main.

End PlotResults.

(** ** plot_results_cardinality.py *)

(** [main]: both tables are read in one [try] block; on
    [FileNotFoundError] the function prints a notice and returns.  The
    result lists the image files saved. *)
Module Cardinality.

Section Main.

Variable DataFrame : Type.

Record results_dir : Type := mk_results {
  exact_csv : option DataFrame;
  hll_csv : option DataFrame
}.

Definition main (d : results_dir) : list string :=
  match exact_csv d with
  | None => []
  | Some exact_df =>
      match hll_csv d with
      | None => []
      | Some hll_df =>
          ["plot1_latency_comparison.png"%string;
           "plot2_accuracy_storage_tradeoff.png"%string;
           "plot3_speedup_vs_error.png"%string]
      end
  end.

End Main.

End Cardinality.

(** ** union_plot.py: data handed to the plots *)

Module PlotData.

(** [Series.unique()]: the distinct values in order of first appearance. *)
Definition unique (xs : list Z) : list Z :=
  fold_left (fun seen x => if existsb (Z.eqb x) seen then seen
                           else seen ++ [x])
            xs [].

Fixpoint insert_sorted (x : Z) (l : list Z) : list Z :=
  match l with
  | [] => [x]
  | y :: t => if x <=? y then x :: l else y :: insert_sorted x t
  end.

(** Python's [sorted] on a list of integers. *)
Definition sorted (xs : list Z) : list Z :=
  fold_right insert_sorted [] xs.

(** [days = sorted(exact_df['num_days'].unique())] *)
Definition days (exact_df : list ExactDf.row) : list Z :=
  sorted (unique (map ExactDf.num_days exact_df)).

(** [exact_by_days = exact_df.groupby('num_days')['query_time_ms']
    .agg(['mean', 'std'])]: the index value with its two columns. *)
Definition exact_by_days (exact_df : list ExactDf.row)
  : list (Z * (F64.float64 * F64.float64)) :=
  map (fun g =>
         (fst g,
          (Pandas.mean (map ExactDf.query_time_ms (snd g)),
           Pandas.std (map ExactDf.query_time_ms (snd g)))))
      (Pandas.groupby ExactDf.num_days Z.ltb Z.eqb exact_df).

Fixpoint has_duplicates (ks : list (Z * Z)) : bool :=
  match ks with
  | [] => false
  | k :: t => existsb (UnionPlot.pair_eqb k) t || has_duplicates t
  end.

(** The cell of the pivot table at [(p, d)]: the value of the row with
    that key, NaN when there is none. *)
Definition cell (values : Comparison.row -> F64.float64)
    (df : list Comparison.row) (p d : Z) : F64.float64 :=
  match find (fun r => UnionPlot.pair_eqb (Comparison.key r) (p, d)) df with
  | Some r => values r
  | None => F64.nan
  end.

(** [df.pivot(index='precision', columns='num_days', values=...)]: one
    line per precision and one column per [num_days], both ascending.
    [None] stands for the [ValueError] raised when two rows have the same
    precision and [num_days]. *)
Definition pivot (values : Comparison.row -> F64.float64)
    (df : list Comparison.row) : option (list (Z * list (Z * F64.float64))) :=
  if has_duplicates (map Comparison.key df) then None
  else
    let index := Pandas.group_keys Comparison.precision Z.ltb Z.eqb df in
    let columns := Pandas.group_keys Comparison.num_days Z.ltb Z.eqb df in
    Some (map (fun p => (p, map (fun d => (d, cell values df p d)) columns))
              index).

Definition speedup_pivot (df : list Comparison.row)
  : option (list (Z * list (Z * F64.float64))) :=
  pivot Comparison.speedup_factor df.

Definition error_pivot (df : list Comparison.row)
  : option (list (Z * list (Z * F64.float64))) :=
  pivot Comparison.error_pct df.

End PlotData.

(** ** plot_results_cardinality.py: [plot_speedup_vs_error] *)

Module HllDf.
Record row : Type := mk {
  precision : Z;
  hll_estimate : F64.float64;
  relative_error : F64.float64;
  duration_ms : F64.float64;
  storage_bytes : F64.float64
}.
End HllDf.

Module ExactCountDf.
Record row : Type := mk {
  distinct_count : F64.float64;
  duration_ms : F64.float64
}.
End ExactCountDf.

Module CardinalityPlots.

(** A row of [summary]: precision, mean duration, mean relative error and
    the speedup column added to it. *)
Record summary_row : Type := mk_summary {
  precision : Z;
  duration_ms : F64.float64;
  relative_error : F64.float64;
  speedup : F64.float64
}.

Definition summary (exact_mean : F64.float64) (hll_df : list HllDf.row)
  : list summary_row :=
  map (fun g =>
         let duration := Pandas.mean (map HllDf.duration_ms (snd g)) in
         {| precision := fst g;
            duration_ms := duration;
            relative_error :=
              Pandas.mean (map HllDf.relative_error (snd g));
            speedup := F64.div exact_mean duration |})
      (Pandas.groupby HllDf.precision Z.ltb Z.eqb hll_df).

Definition colors : list string :=
  ["#3498db"%string; "#2ecc71"%string; "#f39c12"%string].

(** One call of [ax.scatter]: the colour and the row drawn. *)
Record point : Type := mk_point {
  color : string;
  drawn : summary_row
}.

(** The loop [for i, (idx, row) in enumerate(summary.iterrows())] with its
    lookup [colors[i]]; [None] stands for the [IndexError] of the lookup. *)
Fixpoint scatter (i : nat) (rows : list summary_row) : option (list point) :=
  match rows with
  | [] => Some []
  | row :: t =>
      match nth_error colors i with
      | None => None
      | Some c =>
          match scatter (S i) t with
          | None => None
          | Some ps => Some (mk_point c row :: ps)
          end
      end
  end.

Definition plot_speedup_vs_error (exact_df : list ExactCountDf.row)
    (hll_df : list HllDf.row) : option (list point) :=
  let exact_mean := Pandas.mean (map ExactCountDf.duration_ms exact_df) in
  scatter O (summary exact_mean hll_df).

End CardinalityPlots.

(** ** Predicates used in the statements *)

Module Sign.

(** Not a negative number: NaN, [+0], a positive finite value or [+inf]. *)
Definition not_negative (x : F64.float64) : bool :=
  F64.is_nan x || F64.is_nonneg x.

End Sign.

Module PgbenchText.
Import PlotResults.
Open Scope list_scope.

Section Figures.

Variable nd_value : N -> option N.

Definition all_digits (s : text) : bool := forallb (is_digit nd_value) s.

(** The text is empty or starts with a character that is no digit. *)
Definition stops_digits (t : text) : Prop :=
  match t with
  | [] => True
  | c :: _ => is_digit nd_value c = false
  end.

(** A non-empty run of decimal digits. *)
Definition digits (s : text) : Prop :=
  all_digits s = true /\ s <> [].

(** The text holds [before], a figure with integer digits, a full stop
    and fraction digits, and [after], one after the other; [figure] is
    the text of the figure. *)
Definition occurs (before after content figure : text) : Prop :=
  exists pre int_part frac_part post,
    content = pre ++ before ++ int_part ++ dot :: frac_part ++ after ++ post
    /\ digits int_part /\ digits frac_part
    /\ figure = int_part ++ dot :: frac_part.

End Figures.

End PgbenchText.

(** ** Example tables *)

Module Examples.

Definition f100 : F64.float64 := F64.of_Z 100.

(** One approximate trial: a group with a single member. *)
Definition union_single : list UnionDf.row :=
  [UnionDf.mk 10 7 f100 (F64.of_decimal 5 1) 1280].

Definition exact_single : list ExactDf.row :=
  [ExactDf.mk 7 f100 (F64.of_Z 50)].

(** Two trials of one group whose sketch sizes differ. *)
Definition union_sizes : list UnionDf.row :=
  [UnionDf.mk 10 7 f100 (F64.of_decimal 5 1) 100;
   UnionDf.mk 10 7 f100 (F64.of_decimal 6 1) 200].



(** A window whose exact count and estimate are 0 and whose approximate
    query time is 0. *)
Definition union_degenerate : list UnionDf.row :=
  [UnionDf.mk 10 7 (F64.of_Z 0) (F64.of_Z 0) 1280].

Definition exact_degenerate : list ExactDf.row :=
  [ExactDf.mk 7 (F64.of_Z 0) (F64.of_Z 50)].

(** Approximate windows 7 and 14, exact windows 7 and 30. *)
Definition union_windows : list UnionDf.row :=
  [UnionDf.mk 10 7 f100 (F64.of_decimal 5 1) 1280;
   UnionDf.mk 10 14 f100 (F64.of_decimal 6 1) 1280].

Definition exact_windows : list ExactDf.row :=
  [ExactDf.mk 7 f100 (F64.of_Z 50); ExactDf.mk 30 f100 (F64.of_Z 52)].

(** Two configurations with the same speedup 2.0: precision 10 on
    window 14 and precision 12 on window 7. *)
Definition union_tie : list UnionDf.row :=
  [UnionDf.mk 10 14 f100 (F64.of_Z 1) 1280;
   UnionDf.mk 12 7 f100 (F64.of_Z 1) 5120].

Definition exact_tie : list ExactDf.row :=
  [ExactDf.mk 7 f100 (F64.of_Z 2); ExactDf.mk 14 f100 (F64.of_Z 2)].

(** The exact trials are on disk, the approximate trials are not. *)
Definition tables_exact_only : UnionScript.tables_dir :=
  UnionScript.mk_tables None (Some exact_single).

Definition nl : string := String (ascii_of_nat 10) EmptyString.

(** Summaries of pgbench: one in the usual format, one whose tps figure
    has no decimal point, one whose latency figure has none. *)
Definition summary_decimal : PlotResults.text :=
  PlotResults.of_string
    ("latency average = 1.234 ms" ++ nl
     ++ "tps = 5000.25 (excluding connections establishing)" ++ nl)%string.

Definition summary_integer_tps : PlotResults.text :=
  PlotResults.of_string
    ("latency average = 1.234 ms" ++ nl
     ++ "tps = 5000 (excluding connections establishing)" ++ nl)%string.

Definition summary_integer_latency : PlotResults.text :=
  PlotResults.of_string
    ("latency average = 2 ms" ++ nl
     ++ "tps = 5000.25 (excluding connections establishing)" ++ nl)%string.

(** A part of the Unicode database: the ARABIC-INDIC digits U+0660 to
    U+0669, and no other digit beyond ASCII. *)
Definition arabic_indic (c : N) : option N :=
  (if (1632 <=? c) && (c <=? 1641) then Some (c - 1632) else None)%N.

(** A summary whose tps figure is written with the ARABIC-INDIC digits
    three and five. *)
Definition summary_arabic_indic : PlotResults.text :=
  PlotResults.of_string "latency average = 1.0 ms tps = "
  ++ [1635%N; 46%N; 1637%N]
  ++ PlotResults.of_string " (excluding connections establishing)".

Definition summary_name : string := "07_summary_read_union.txt".

Definition results_with (content : PlotResults.text)
  : PlotResults.directory :=
  fun filename =>
    if String.eqb filename summary_name then PlotResults.Text content
    else PlotResults.Absent.

(** A results directory without the hashing results: every other CSV
    file is there, no pgbench summary is. *)
Definition results_without_hashing : PlotResults.directory :=
  fun filename =>
    if String.eqb filename "03_results_hashing.csv" then PlotResults.Absent
    else if String.eqb filename "01_results_bulk_exact.csv"
            || String.eqb filename "01_results_bulk_hll.csv"
            || String.eqb filename "02_results_storage.csv"
         then PlotResults.Text (PlotResults.of_string "duration_ms")
         else PlotResults.Absent.

(** Every CSV text loads and every plot runs through. *)
Definition read_any (content : PlotResults.text) : option unit := Some tt.

Definition render_all : PlotResults.rendering unit :=
  PlotResults.mk_rendering unit
    (fun _ _ => true) (fun _ _ => true) (fun _ => true) (fun _ => true)
    (fun _ => true) (fun _ => true).

(** Two precisions measured on the same window. *)
Definition union_two_precisions : list UnionDf.row :=
  [UnionDf.mk 10 7 f100 (F64.of_decimal 5 1) 1280;
   UnionDf.mk 12 7 f100 (F64.of_decimal 6 1) 5120].

(** A full grid: the precisions 10, 12 and 14 that the plots loop over,
    each measured twice on the windows 7 and 14.  The speedup is 2.0 for
    precision 10 on window 14 and for precision 12 on window 7, and 1.0
    elsewhere. *)
Definition grid_trials (p d : Z) (time : F64.float64) (size : Z)
  : list UnionDf.row :=
  [UnionDf.mk p d (F64.of_Z 101) time size;
   UnionDf.mk p d (F64.of_Z 101) time size].

Definition union_grid : list UnionDf.row :=
  grid_trials 10 7 (F64.of_Z 2) 1280
  ++ grid_trials 10 14 (F64.of_Z 1) 1280
  ++ grid_trials 12 7 (F64.of_Z 1) 5120
  ++ grid_trials 12 14 (F64.of_Z 2) 5120
  ++ grid_trials 14 7 (F64.of_Z 2) 20480
  ++ grid_trials 14 14 (F64.of_Z 2) 20480.

Definition exact_grid : list ExactDf.row :=
  [ExactDf.mk 7 f100 (F64.of_Z 2); ExactDf.mk 7 f100 (F64.of_Z 2);
   ExactDf.mk 14 f100 (F64.of_Z 2); ExactDf.mk 14 f100 (F64.of_Z 2)].

End Examples.

(** ** Facts about [groupby] *)

Section GroupByFacts.

Context {K R : Type}.
Variable key : R -> K.
Variable kltb : K -> K -> bool.
Variable keqb : K -> K -> bool.
Variable lt : K -> K -> Prop.

Hypothesis kltb_lt : forall a b, kltb a b = true <-> lt a b.
Hypothesis keqb_eq : forall a b, keqb a b = true <-> a = b.
Hypothesis lt_irrefl : forall a, ~ lt a a.
Hypothesis lt_trans : forall a b c, lt a b -> lt b c -> lt a c.
Hypothesis lt_total : forall a b, lt a b \/ a = b \/ lt b a.

Lemma insert_key_In (k x : K) (ks : list K) :
  In x (Pandas.insert_key kltb keqb k ks) <-> x = k \/ In x ks.
Proof.
  induction ks as [|k' t IH]; simpl.
  - intuition.
  - destruct (kltb k k') eqn:Hlt; simpl.
    + intuition.
    + destruct (keqb k k') eqn:Heq; simpl.
      * apply keqb_eq in Heq. subst k'. intuition.
      * rewrite IH. intuition.
Qed.

Lemma insert_key_sorted (k : K) (ks : list K) :
  StronglySorted lt ks ->
  StronglySorted lt (Pandas.insert_key kltb keqb k ks).
Proof.
  induction 1 as [|k' t Hs IH Hall]; simpl.
  - repeat constructor.
  - destruct (kltb k k') eqn:Hlt.
    + apply kltb_lt in Hlt.
      constructor; [constructor; assumption|].
      constructor; [assumption|].
      rewrite Forall_forall in *. intros y Hy. eauto.
    + destruct (keqb k k') eqn:Heq.
      * constructor; assumption.
      * constructor; [assumption|].
        rewrite Forall_forall in *. intros y Hy.
        apply insert_key_In in Hy. destruct Hy as [->|Hy]; [|auto].
        destruct (lt_total k k') as [H|[H|H]]; [| |exact H].
        -- apply kltb_lt in H. congruence.
        -- apply keqb_eq in H. congruence.
Qed.

Lemma group_keys_In (rows : list R) (k : K) :
  In k (Pandas.group_keys key kltb keqb rows) <-> In k (map key rows).
Proof.
  unfold Pandas.group_keys.
  induction (map key rows) as [|a l IH]; simpl; [tauto|].
  rewrite insert_key_In, IH. intuition.
Qed.

Lemma group_keys_sorted (rows : list R) :
  StronglySorted lt (Pandas.group_keys key kltb keqb rows).
Proof.
  unfold Pandas.group_keys.
  induction (map key rows) as [|a l IH]; simpl.
  - constructor.
  - apply insert_key_sorted, IH.
Qed.

Lemma sorted_NoDup (ks : list K) : StronglySorted lt ks -> NoDup ks.
Proof.
  induction 1 as [|k t Hs IH Hall]; constructor; [|assumption].
  intro Hin. rewrite Forall_forall in Hall.
  exact (lt_irrefl k (Hall k Hin)).
Qed.

Lemma groupby_keys (rows : list R) :
  map fst (Pandas.groupby key kltb keqb rows)
  = Pandas.group_keys key kltb keqb rows.
Proof.
  unfold Pandas.groupby. rewrite map_map. simpl. apply map_id.
Qed.

Lemma groupby_In (rows : list R) (g : K * list R) :
  In g (Pandas.groupby key kltb keqb rows) <->
  In (fst g) (map key rows)
  /\ snd g = Pandas.group_rows key keqb rows (fst g).
Proof.
  unfold Pandas.groupby. rewrite in_map_iff. split.
  - intros [k [<- Hk]]. simpl. split; [|reflexivity].
    apply group_keys_In. exact Hk.
  - intros [Hk Hg]. exists (fst g). split.
    + destruct g as [k rs]. simpl in *. congruence.
    + apply group_keys_In. exact Hk.
Qed.

Lemma group_rows_nonempty (rows : list R) (k : K) :
  In k (map key rows) -> Pandas.group_rows key keqb rows k <> [].
Proof.
  intros Hk Hnil. apply in_map_iff in Hk. destruct Hk as [r [Hr Hin]].
  assert (Hf : In r (Pandas.group_rows key keqb rows k)).
  { unfold Pandas.group_rows. apply filter_In. split; [assumption|].
    apply keqb_eq. assumption. }
  rewrite Hnil in Hf. exact Hf.
Qed.

Lemma group_keys_nil (rows : list R) :
  Pandas.group_keys key kltb keqb rows = [] <-> rows = [].
Proof.
  split.
  - intro H. destruct rows as [|r rows]; [reflexivity|].
    assert (Hin : In (key r) (Pandas.group_keys key kltb keqb (r :: rows))).
    { apply group_keys_In. simpl. auto. }
    rewrite H in Hin. destruct Hin.
  - intros ->. reflexivity.
Qed.

End GroupByFacts.

(** ** The two aggregated tables *)

Module AggFacts.
Import UnionPlot.

Lemma pair_ltb_lt (a b : Z * Z) : pair_ltb a b = true <-> pair_lt a b.
Proof.
  unfold pair_ltb, pair_lt.
  rewrite orb_true_iff, andb_true_iff, !Z.ltb_lt, Z.eqb_eq. tauto.
Qed.

Lemma pair_eqb_eq (a b : Z * Z) : pair_eqb a b = true <-> a = b.
Proof.
  unfold pair_eqb. destruct a as [a1 a2], b as [b1 b2]. simpl.
  rewrite andb_true_iff, !Z.eqb_eq. split.
  - intros [-> ->]. reflexivity.
  - intro H. inversion H. auto.
Qed.

Lemma pair_lt_irrefl (a : Z * Z) : ~ pair_lt a a.
Proof. unfold pair_lt. lia. Qed.

Lemma pair_lt_trans (a b c : Z * Z) :
  pair_lt a b -> pair_lt b c -> pair_lt a c.
Proof. unfold pair_lt. lia. Qed.

Lemma pair_lt_total (a b : Z * Z) : pair_lt a b \/ a = b \/ pair_lt b a.
Proof.
  unfold pair_lt. destruct a as [a1 a2], b as [b1 b2]. simpl.
  destruct (Z.lt_total a1 b1) as [H|[H|H]]; [auto| |auto].
  destruct (Z.lt_total a2 b2) as [H'|[H'|H']]; [auto| |auto].
  subst. auto.
Qed.

Lemma Z_lt_total (a b : Z) : a < b \/ a = b \/ b < a.
Proof. lia. Qed.

Lemma union_stats_keys (union_df : list UnionDf.row) :
  map UnionStats.key (union_stats union_df)
  = Pandas.group_keys union_key pair_ltb pair_eqb union_df.
Proof.
  unfold union_stats. rewrite map_map.
  rewrite <- (groupby_keys union_key pair_ltb pair_eqb).
  apply map_ext. intros [[p d] rows]. reflexivity.
Qed.

Lemma exact_stats_keys (exact_df : list ExactDf.row) :
  map ExactStats.num_days (exact_stats exact_df)
  = Pandas.group_keys ExactDf.num_days Z.ltb Z.eqb exact_df.
Proof.
  unfold exact_stats. rewrite map_map.
  rewrite <- (groupby_keys ExactDf.num_days Z.ltb Z.eqb).
  apply map_ext. intros [d rows]. reflexivity.
Qed.

(** Every row of [union_stats] is the aggregate of the trials of its key,
    and that group is not empty. *)
Lemma union_stats_In (union_df : list UnionDf.row) (r : UnionStats.row) :
  In r (union_stats union_df) ->
  In (UnionStats.key r) (map union_key union_df)
  /\ r = agg_union (UnionStats.key r, union_group union_df (UnionStats.key r)).
Proof.
  unfold union_stats. intro H. apply in_map_iff in H.
  destruct H as [[k rows] [<- Hg]].
  apply (groupby_In union_key pair_ltb pair_eqb pair_eqb_eq) in Hg.
  simpl in Hg. destruct Hg as [Hk ->]. destruct k as [p d].
  split; [exact Hk | reflexivity].
Qed.

Lemma exact_stats_In (exact_df : list ExactDf.row) (r : ExactStats.row) :
  In r (exact_stats exact_df) ->
  In (ExactStats.num_days r) (map ExactDf.num_days exact_df)
  /\ r = agg_exact (ExactStats.num_days r,
                    exact_group exact_df (ExactStats.num_days r)).
Proof.
  unfold exact_stats. intro H. apply in_map_iff in H.
  destruct H as [[d rows] [<- Hg]].
  apply (groupby_In ExactDf.num_days Z.ltb Z.eqb Z.eqb_eq) in Hg.
  simpl in Hg. destruct Hg as [Hk ->].
  split; [exact Hk | reflexivity].
Qed.

Lemma union_stats_sorted (union_df : list UnionDf.row) :
  StronglySorted pair_lt (map UnionStats.key (union_stats union_df)).
Proof.
  rewrite union_stats_keys.
  apply (group_keys_sorted union_key pair_ltb pair_eqb pair_lt
           pair_ltb_lt pair_eqb_eq pair_lt_trans pair_lt_total).
Qed.

Lemma exact_stats_sorted (exact_df : list ExactDf.row) :
  StronglySorted Z.lt (map ExactStats.num_days (exact_stats exact_df)).
Proof.
  rewrite exact_stats_keys.
  apply (group_keys_sorted ExactDf.num_days Z.ltb Z.eqb Z.lt
           Z.ltb_lt Z.eqb_eq Z.lt_trans Z_lt_total).
Qed.

Lemma union_stats_NoDup (union_df : list UnionDf.row) :
  NoDup (map UnionStats.key (union_stats union_df)).
Proof.
  apply (sorted_NoDup pair_lt pair_lt_irrefl), union_stats_sorted.
Qed.

Lemma exact_stats_NoDup (exact_df : list ExactDf.row) :
  NoDup (map ExactStats.num_days (exact_stats exact_df)).
Proof.
  apply (sorted_NoDup Z.lt Z.lt_irrefl), exact_stats_sorted.
Qed.

End AggFacts.

(** ** Facts about the reductions *)

Module ReduceFacts.

Lemma count_le_length (xs : list F64.float64) :
  Pandas.count xs <= Z.of_nat (List.length xs).
Proof.
  unfold Pandas.count, Pandas.dropna.
  apply inj_le, filter_length_le.
Qed.

Lemma std_few (xs : list F64.float64) :
  (List.length xs <= 1)%nat -> Pandas.std xs = F64.nan.
Proof.
  intro H. unfold Pandas.std.
  pose proof (count_le_length xs) as Hc.
  destruct (Pandas.count xs <=? 1) eqn:E; [reflexivity|].
  apply Z.leb_gt in E. lia.
Qed.

Lemma fold_max_ge (xs : list Z) (a : Z) :
  a <= fold_left Z.max xs a
  /\ (forall v, In v xs -> v <= fold_left Z.max xs a)
  /\ (fold_left Z.max xs a = a \/ In (fold_left Z.max xs a) xs).
Proof.
  revert a. induction xs as [|x t IH]; intro a; simpl.
  - repeat split; [lia | intros v [] | auto].
  - destruct (IH (Z.max a x)) as [H1 [H2 H3]].
    repeat split.
    + lia.
    + intros v [<-|Hv]; [lia | auto].
    + destruct H3 as [H3|H3]; [|auto].
      rewrite H3. destruct (Z.max_spec a x) as [[_ ->]|[_ ->]]; auto.
Qed.

Lemma max_spec (xs : list Z) :
  xs <> [] ->
  In (Pandas.max xs) xs /\ forall v, In v xs -> v <= Pandas.max xs.
Proof.
  destruct xs as [|x t]; [congruence|]. intros _. simpl.
  destruct (fold_max_ge t x) as [H1 [H2 H3]]. split.
  - destruct H3 as [->|H3]; auto.
  - intros v [<-|Hv]; auto.
Qed.

End ReduceFacts.

(** ** The aggregator *)

Module Aggregator.
Import UnionPlot AggFacts.

(** C6.  Each aggregated table has one row per distinct group key of its
    trial table: the keys of the rows are pairwise distinct, they are
    exactly the keys that occur among the trials, and the rows are in
    strictly ascending order of the key tuple [(precision, num_days)]
    (of [num_days] for the exact table). *)
Theorem aggregate_one_row_per_key_sorted
    (union_df : list UnionDf.row) (exact_df : list ExactDf.row) :
  let uk := map UnionStats.key (union_stats union_df) in
  let ek := map ExactStats.num_days (exact_stats exact_df) in
  (NoDup uk
   /\ (forall k, In k uk <-> In k (map union_key union_df))
   /\ StronglySorted pair_lt uk)
  /\ (NoDup ek
      /\ (forall d, In d ek <-> In d (map ExactDf.num_days exact_df))
      /\ StronglySorted Z.lt ek).
Proof.
  cbv zeta. split; split.
  - apply union_stats_NoDup.
  - split; [|apply union_stats_sorted].
    intro k. rewrite union_stats_keys.
    apply (group_keys_In union_key pair_ltb pair_eqb pair_eqb_eq).
  - apply exact_stats_NoDup.
  - split; [|apply exact_stats_sorted].
    intro d. rewrite exact_stats_keys.
    apply (group_keys_In ExactDf.num_days Z.ltb Z.eqb Z.eqb_eq).
Qed.

(** C8, as the code has it.  Aggregating an empty trial table raises no
    error: the result is the empty table, and an aggregated table is
    empty only for an empty trial table. *)
Theorem aggregate_empty_iff
    (union_df : list UnionDf.row) (exact_df : list ExactDf.row) :
  (union_stats union_df = [] <-> union_df = [])
  /\ (exact_stats exact_df = [] <-> exact_df = []).
Proof.
  split.
  - rewrite <- (group_keys_nil union_key pair_ltb pair_eqb pair_eqb_eq).
    rewrite <- union_stats_keys. split.
    + intros ->. reflexivity.
    + intro H. apply map_eq_nil in H. exact H.
  - rewrite <- (group_keys_nil ExactDf.num_days Z.ltb Z.eqb Z.eqb_eq).
    rewrite <- exact_stats_keys. split.
    + intros ->. reflexivity.
    + intro H. apply map_eq_nil in H. exact H.
Qed.

(** C8, the claim refuted: on the empty trial tables the aggregation
    returns the empty aggregated tables. *)
Lemma aggregate_empty_returns_empty_table :
  union_stats [] = [] /\ exact_stats [] = [].
Proof. split; reflexivity. Qed.

(** C2, as the code has it.  For a group of exactly one trial the
    standard deviation of the timing column is NaN, in both tables. *)
Theorem single_trial_stddev_nan
    (union_df : list UnionDf.row) (exact_df : list ExactDf.row) :
  (forall r, In r (union_stats union_df) ->
     List.length (union_group union_df (UnionStats.key r)) = 1%nat ->
     UnionStats.union_stddev_ms r = F64.nan)
  /\ (forall r, In r (exact_stats exact_df) ->
        List.length (exact_group exact_df (ExactStats.num_days r)) = 1%nat ->
        ExactStats.exact_stddev_ms r = F64.nan).
Proof.
  split; intros r Hr Hlen.
  - apply union_stats_In in Hr. destruct Hr as [_ Hr]. rewrite Hr. simpl.
    apply ReduceFacts.std_few. rewrite length_map. lia.
  - apply exact_stats_In in Hr. destruct Hr as [_ Hr]. rewrite Hr. simpl.
    apply ReduceFacts.std_few. rewrite length_map. lia.
Qed.

Lemma single_trial_stddev_nan_witness :
  UnionStats.union_stddev_ms
    (agg_union ((10, 7), Examples.union_single)) = F64.nan
  /\ ExactStats.exact_stddev_ms
       (agg_exact (7, Examples.exact_single)) = F64.nan.
Proof.
  split.
  - apply (proj1 (single_trial_stddev_nan
                    Examples.union_single Examples.exact_single)).
    + left. reflexivity.
    + reflexivity.
  - apply (proj2 (single_trial_stddev_nan
                    Examples.union_single Examples.exact_single)).
    + left. reflexivity.
    + reflexivity.
Defined.

(** C2, the claim refuted: the table of one approximate trial has one row,
    its group has one member, and its standard deviation is NaN, which is
    not zero. *)
Lemma single_trial_stddev_not_zero :
  exists r,
    union_stats Examples.union_single = [r]
    /\ List.length
         (union_group Examples.union_single (UnionStats.key r)) = 1%nat
    /\ F64.is_nan (UnionStats.union_stddev_ms r) = true
    /\ F64.is_zero (UnionStats.union_stddev_ms r) = false.
Proof.
  eexists. split; [reflexivity|]. repeat split.
Qed.

(** C5, as the code has it.  The sketch-size column of an aggregated row
    is the maximum of the sketch sizes of the trials of its group: one of
    them, and no smaller than any of them. *)
Theorem sketch_bytes_is_group_max
    (union_df : list UnionDf.row) (r : UnionStats.row) :
  In r (union_stats union_df) ->
  let sizes := map UnionDf.total_sketch_size_bytes
                   (union_group union_df (UnionStats.key r)) in
  In (UnionStats.total_sketch_bytes r) sizes
  /\ forall v, In v sizes -> v <= UnionStats.total_sketch_bytes r.
Proof.
  intros Hr sizes. apply union_stats_In in Hr. destruct Hr as [Hk Hr].
  assert (Hs : UnionStats.total_sketch_bytes r = Pandas.max sizes).
  { rewrite Hr at 1. reflexivity. }
  rewrite Hs. apply ReduceFacts.max_spec.
  subst sizes. intro Hnil. apply map_eq_nil in Hnil.
  exact (group_rows_nonempty union_key pair_eqb pair_eqb_eq
           union_df _ Hk Hnil).
Qed.

Lemma sketch_bytes_is_group_max_witness :
  In 200 [100; 200] /\ forall v, In v [100; 200] -> v <= 200.
Proof.
  apply (sketch_bytes_is_group_max Examples.union_sizes
           (UnionStats.mk 10 7 Examples.f100
              (Pandas.mean [F64.of_decimal 5 1; F64.of_decimal 6 1])
              (Pandas.std [F64.of_decimal 5 1; F64.of_decimal 6 1])
              200)).
  left. reflexivity.
Defined.

(** C5, the claim refuted: for a group with sketch sizes 100 and 200 the
    aggregated value is 200, while the arithmetic mean of the two is 150. *)
Lemma sketch_bytes_not_mean :
  map UnionStats.total_sketch_bytes (union_stats Examples.union_sizes)
  = [200]
  /\ Pandas.mean
       (map (fun t => F64.of_Z (UnionDf.total_sketch_size_bytes t))
            (union_group Examples.union_sizes (10, 7)))
     = F64.of_Z 150
  /\ F64.eqb (F64.of_Z 200) (F64.of_Z 150) = false.
Proof. repeat split. Qed.

End Aggregator.

(** ** The comparator *)

Module JoinFacts.
Import UnionPlot AggFacts.

Lemma merge_In (left : list UnionStats.row) (right : list ExactStats.row)
    (u : UnionStats.row) (e : ExactStats.row) :
  In (u, e) (merge left right) <->
  In u left /\ In e right /\ ExactStats.num_days e = UnionStats.num_days u.
Proof.
  unfold merge. rewrite in_flat_map. split.
  - intros [u' [Hu' H]]. apply in_map_iff in H.
    destruct H as [e' [Heq He']]. inversion Heq; subst u' e'.
    apply filter_In in He'. destruct He' as [He' Hd].
    apply Z.eqb_eq in Hd. auto.
  - intros [Hu [He Hd]]. exists u. split; [assumption|].
    apply in_map, filter_In. split; [assumption|].
    apply Z.eqb_eq. assumption.
Qed.

Lemma comparison_df_In (union_df : list UnionDf.row)
    (exact_df : list ExactDf.row) (r : Comparison.row) :
  In r (comparison_df union_df exact_df) <->
  exists u e,
    In u (union_stats union_df) /\ In e (exact_stats exact_df)
    /\ ExactStats.num_days e = UnionStats.num_days u
    /\ r = derive u e.
Proof.
  unfold comparison_df. rewrite in_map_iff. split.
  - intros [[u e] [<- H]]. apply merge_In in H.
    exists u, e. simpl. tauto.
  - intros [u [e [Hu [He [Hd ->]]]]]. exists (u, e). split; [reflexivity|].
    apply merge_In. auto.
Qed.

(** With distinct keys on the right, a left row meets at most one row. *)
Lemma filter_unique_key (right : list ExactStats.row) (d : Z) :
  NoDup (map ExactStats.num_days right) ->
  (In d (map ExactStats.num_days right) ->
   exists e, filter (fun e => ExactStats.num_days e =? d) right = [e])
  /\ (~ In d (map ExactStats.num_days right) ->
      filter (fun e => ExactStats.num_days e =? d) right = []).
Proof.
  induction right as [|e t IH]; simpl; intro Hnd.
  - split; [intros [] | reflexivity].
  - inversion Hnd as [|? ? Hnotin Hnd']; subst.
    destruct (IH Hnd') as [IH1 IH2].
    destruct (ExactStats.num_days e =? d) eqn:E.
    + apply Z.eqb_eq in E. subst d. split.
      * intros _. exists e. rewrite (IH2 Hnotin). reflexivity.
      * intro H. exfalso. apply H. auto.
    + apply Z.eqb_neq in E. split.
      * intros [H|H]; [contradiction | auto].
      * intro H. apply IH2. intro H'. apply H. auto.
Qed.

Lemma existsb_eqb_In (d : Z) (ds : list Z) :
  existsb (Z.eqb d) ds = true <-> In d ds.
Proof.
  rewrite existsb_exists. split.
  - intros [x [Hx E]]. apply Z.eqb_eq in E. subst. assumption.
  - intro H. exists d. split; [assumption | apply Z.eqb_refl].
Qed.

Lemma merge_keys (left : list UnionStats.row) (right : list ExactStats.row) :
  NoDup (map ExactStats.num_days right) ->
  map (fun ue => Comparison.key (derive (fst ue) (snd ue))) (merge left right)
  = filter (fun k => existsb (Z.eqb (snd k)) (map ExactStats.num_days right))
           (map UnionStats.key left).
Proof.
  intro Hnd. unfold merge.
  induction left as [|u t IH]; simpl; [reflexivity|].
  rewrite map_app, IH.
  destruct (filter_unique_key right (UnionStats.num_days u) Hnd) as [H1 H2].
  destruct (existsb (Z.eqb (UnionStats.num_days u))
              (map ExactStats.num_days right)) eqn:E.
  - apply existsb_eqb_In in E. destruct (H1 E) as [e ->]. reflexivity.
  - rewrite H2; [reflexivity|]. intro H. apply existsb_eqb_In in H.
    congruence.
Qed.

Lemma comparison_df_keys (union_df : list UnionDf.row)
    (exact_df : list ExactDf.row) :
  map Comparison.key (comparison_df union_df exact_df)
  = filter (fun k => existsb (Z.eqb (snd k))
                       (map ExactStats.num_days (exact_stats exact_df)))
           (map UnionStats.key (union_stats union_df)).
Proof.
  unfold comparison_df. rewrite map_map.
  apply merge_keys, exact_stats_NoDup.
Qed.

Lemma filter_sorted {A : Type} (lt : A -> A -> Prop) (f : A -> bool)
    (l : list A) :
  StronglySorted lt l -> StronglySorted lt (filter f l).
Proof.
  induction 1 as [|a t Hs IH Hall]; simpl; [constructor|].
  destruct (f a); [|assumption].
  constructor; [assumption|].
  rewrite Forall_forall in *. intros x Hx. apply filter_In in Hx.
  apply Hall. tauto.
Qed.

Lemma comparison_df_sorted (union_df : list UnionDf.row)
    (exact_df : list ExactDf.row) :
  StronglySorted pair_lt
    (map Comparison.key (comparison_df union_df exact_df)).
Proof.
  rewrite comparison_df_keys. apply filter_sorted, union_stats_sorted.
Qed.

End JoinFacts.

Module FloatFacts.

Lemma div_by_zero (x y : F64.float64) :
  F64.is_zero y = true -> F64.is_finite (F64.div x y) = false.
Proof.
  destruct y; simpl; try discriminate. intros _.
  destruct x; reflexivity.
Qed.

Lemma of_Z_100 : F64.of_Z 100 = S754_finite false 7036874417766400 (-46).
Proof. reflexivity. Qed.

Lemma mul_100_not_finite (x : F64.float64) :
  F64.is_finite x = false ->
  F64.is_finite (F64.mul x (F64.of_Z 100)) = false.
Proof.
  rewrite of_Z_100. destruct x; simpl; try discriminate; reflexivity.
Qed.

End FloatFacts.

Module Comparator.
Import UnionPlot AggFacts JoinFacts.

(** C3, as the code has it.  [comparison_df] is the inner join of the two
    aggregated tables on [num_days] alone: its key pairs
    [(precision, num_days)] are those of the approximate table whose
    [num_days] occurs in the exact table, in the same order and each once;
    every row is derived from an approximate row and the exact row of the
    same [num_days], the precision being that of the approximate row.  A
    [num_days] found on one side only occurs in no row of the result. *)
Theorem compare_is_inner_join_on_window
    (union_df : list UnionDf.row) (exact_df : list ExactDf.row) :
  let approx := union_stats union_df in
  let exact := exact_stats exact_df in
  let keys := map Comparison.key (comparison_df union_df exact_df) in
  keys = filter (fun k => existsb (Z.eqb (snd k))
                            (map ExactStats.num_days exact))
                (map UnionStats.key approx)
  /\ NoDup keys
  /\ (forall p d, In (p, d) keys <->
        In (p, d) (map UnionStats.key approx)
        /\ In d (map ExactStats.num_days exact))
  /\ (forall r, In r (comparison_df union_df exact_df) ->
        exists u e,
          In u approx /\ In e exact
          /\ ExactStats.num_days e = UnionStats.num_days u
          /\ Comparison.precision r = UnionStats.precision u
          /\ Comparison.num_days r = UnionStats.num_days u
          /\ r = derive u e).
Proof.
  cbv zeta. split; [apply comparison_df_keys|]. split; [|split].
  - apply (sorted_NoDup pair_lt pair_lt_irrefl), comparison_df_sorted.
  - intros p d. rewrite comparison_df_keys, filter_In. simpl.
    rewrite existsb_eqb_In. tauto.
  - intros r Hr. apply comparison_df_In in Hr.
    destruct Hr as [u [e [Hu [He [Hd ->]]]]].
    exists u, e. repeat split; assumption.
Qed.

Lemma compare_is_inner_join_on_window_witness :
  In (10, 7) (map Comparison.key
                (comparison_df Examples.union_windows Examples.exact_windows)).
Proof.
  apply (proj1 (proj2 (proj2 (compare_is_inner_join_on_window
                  Examples.union_windows Examples.exact_windows)))).
  split.
  - left. reflexivity.
  - left. reflexivity.
Defined.

(** C3, the claim refuted: window 14 has approximate trials only and
    window 30 exact trials only; the result of the join is the single row
    of window 7 and mentions neither 14 nor 30. *)
Lemma compare_drops_unmatched_windows :
  let out := comparison_df Examples.union_windows Examples.exact_windows in
  map Comparison.key out = [(10, 7)]
  /\ In 14 (map UnionStats.num_days (union_stats Examples.union_windows))
  /\ In 30 (map ExactStats.num_days (exact_stats Examples.exact_windows))
  /\ ~ In 14 (map Comparison.num_days out)
  /\ ~ In 30 (map Comparison.num_days out).
Proof.
  cbv zeta. split; [reflexivity|]. split; [right; left; reflexivity|].
  split; [right; left; reflexivity|].
  split; intros [H|[]]; discriminate H.
Qed.





(** C1, as the code has it.  In a row of [comparison_df] whose exact
    count is zero, [error_pct] is an infinity or NaN; in a row whose
    approximate time is zero, [speedup_factor] is an infinity or NaN; in
    a row whose [error_pct] is zero, [efficiency_score] is an infinity or
    NaN.  The value is the plain binary64 quotient; no finite number, in
    particular no 0, stands in for it. *)
Theorem zero_denominator_gives_inf_or_nan
    (union_df : list UnionDf.row) (exact_df : list ExactDf.row)
    (r : Comparison.row) :
  In r (comparison_df union_df exact_df) ->
  (F64.is_zero (Comparison.exact_count r) = true ->
   F64.is_finite (Comparison.error_pct r) = false)
  /\ (F64.is_zero (Comparison.union_time_ms r) = true ->
      F64.is_finite (Comparison.speedup_factor r) = false)
  /\ (F64.is_zero (Comparison.error_pct r) = true ->
      F64.is_finite (Comparison.efficiency_score r) = false).
Proof.
  intro Hr. apply comparison_df_In in Hr.
  destruct Hr as [u [e [_ [_ [_ ->]]]]].
  split; [|split]; intro Hz.
  - apply FloatFacts.mul_100_not_finite, FloatFacts.div_by_zero. exact Hz.
  - apply FloatFacts.div_by_zero. exact Hz.
  - apply FloatFacts.div_by_zero. exact Hz.
Qed.

Lemma zero_denominator_gives_inf_or_nan_witness :
  let r :=
    derive (agg_union ((10, 7), Examples.union_degenerate))
           (agg_exact (7, Examples.exact_degenerate)) in
  F64.is_finite (Comparison.error_pct r) = false
  /\ F64.is_finite (Comparison.speedup_factor r) = false.
Proof.
  cbv zeta.
  pose proof (zero_denominator_gives_inf_or_nan
                Examples.union_degenerate Examples.exact_degenerate
                (derive (agg_union ((10, 7), Examples.union_degenerate))
                        (agg_exact (7, Examples.exact_degenerate)))
                (or_introl eq_refl)) as [H1 [H2 _]].
  split; [apply H1 | apply H2]; reflexivity.
Defined.

(** C1, the claim refuted.  With exact count 0, estimate 0 and
    approximate time 0 the row has [error_pct] NaN, [speedup_factor]
    [+inf] and [efficiency_score] NaN; with an estimate equal to the
    exact count, [error_pct] is 0 and [efficiency_score] is [+inf]. *)
Lemma zero_denominator_metrics_are_plain_floats :
  let deg := comparison_df Examples.union_degenerate
                           Examples.exact_degenerate in
  let one := comparison_df Examples.union_single Examples.exact_single in
  map Comparison.exact_count deg = [S754_zero false]
  /\ map Comparison.error_pct deg = [F64.nan]
  /\ map Comparison.union_time_ms deg = [S754_zero false]
  /\ map Comparison.speedup_factor deg = [F64.pinf]
  /\ map Comparison.efficiency_score deg = [F64.nan]
  /\ map Comparison.error_pct one = [S754_zero false]
  /\ map Comparison.efficiency_score one = [F64.pinf].
Proof. cbv zeta. repeat split; vm_compute; reflexivity. Qed.

End Comparator.

(** ** The order of binary64 values that are not NaN *)

Module OrderFacts.

Ltac cmp_cases :=
  repeat match goal with
  | H : context [Pos.compare_cont Eq ?a ?b] |- _ =>
      change (Pos.compare_cont Eq a b) with (Pos.compare a b) in H
  | |- context [Pos.compare_cont Eq ?a ?b] =>
      change (Pos.compare_cont Eq a b) with (Pos.compare a b)
  end;
  repeat match goal with
  | H : context [Z.compare ?a ?b] |- _ =>
      destruct (Z.compare_spec a b); simpl in H; try discriminate H
  | H : context [Pos.compare ?a ?b] |- _ =>
      destruct (Pos.compare_spec a b); simpl in H; try discriminate H
  | |- context [Z.compare ?a ?b] =>
      destruct (Z.compare_spec a b); simpl
  | |- context [Pos.compare ?a ?b] =>
      destruct (Pos.compare_spec a b); simpl
  end;
  subst; try reflexivity; try discriminate; try lia.

(** [b < x] and not [b < y] give [y < x]. *)
Lemma ltb_above (b x y : F64.float64) :
  F64.is_nan y = false -> F64.ltb b x = true -> F64.ltb b y = false ->
  F64.ltb y x = true.
Proof.
  unfold F64.ltb, SFltb, SFcompare.
  destruct b as [sb|sb| |sb mb eb], x as [sx|sx| |sx mx ex],
           y as [sy|sy| |sy my ey]; simpl; try discriminate;
    try destruct sb; try destruct sx; try destruct sy; simpl;
    intros _ H1 H2; try discriminate; try reflexivity; cmp_cases.
Qed.

(** [x < b] and not [y < b] give [x < y]. *)
Lemma ltb_below (b x y : F64.float64) :
  F64.is_nan y = false -> F64.ltb x b = true -> F64.ltb y b = false ->
  F64.ltb x y = true.
Proof.
  unfold F64.ltb, SFltb, SFcompare.
  destruct b as [sb|sb| |sb mb eb], x as [sx|sx| |sx mx ex],
           y as [sy|sy| |sy my ey]; simpl; try discriminate;
    try destruct sb; try destruct sx; try destruct sy; simpl;
    intros _ H1 H2; try discriminate; try reflexivity; cmp_cases.
Qed.

Lemma ltb_asym (x y : F64.float64) :
  F64.ltb x y = true -> F64.ltb y x = false.
Proof.
  unfold F64.ltb, SFltb, SFcompare.
  destruct x as [sx|sx| |sx mx ex], y as [sy|sy| |sy my ey]; simpl;
    try discriminate; try destruct sx; try destruct sy; simpl;
    intros H1; try discriminate; try reflexivity; cmp_cases.
Qed.

End OrderFacts.

(** ** [idxmax] and [idxmin] *)

Section IdxBest.

Variable better : F64.float64 -> F64.float64 -> bool.

Hypothesis better_cotrans : forall b x y,
  F64.is_nan y = false -> better x b = true -> better y b = false ->
  better x y = true.
Hypothesis better_asym : forall x y, better x y = true -> better y x = false.

Lemma better_irrefl (x : F64.float64) : better x x = false.
Proof.
  destruct (better x x) eqn:E; [|reflexivity].
  rewrite (better_asym x x E) in E. discriminate.
Qed.

Lemma nth_error_snoc (seen : list F64.float64) (x y : F64.float64) (j : nat) :
  nth_error (seen ++ [x]) j = Some y ->
  ((j < List.length seen)%nat /\ nth_error seen j = Some y)
  \/ (j = List.length seen /\ y = x).
Proof.
  intro H. destruct (Nat.lt_ge_cases j (List.length seen)) as [Hlt|Hge].
  - left. rewrite nth_error_app1 in H by assumption. auto.
  - right. rewrite nth_error_app2 in H by assumption.
    destruct (j - List.length seen)%nat as [|n] eqn:E; simpl in H.
    + split; [lia | congruence].
    + destruct n; discriminate.
Qed.

Lemma scanned_step (seen : list F64.float64) (x : F64.float64)
    (best : option (nat * F64.float64)) :
  Forall (fun y => F64.is_nan y = false) seen ->
  Pandas.scanned better seen best ->
  Pandas.scanned better (seen ++ [x])
    (match best with
     | None => Some (List.length seen, x)
     | Some (_, b) =>
         if better x b then Some (List.length seen, x) else best
     end).
Proof.
  intros Hnan Inv. rewrite Forall_forall in Hnan.
  assert (Hnew :
            (forall j y, nth_error seen j = Some y -> better x y = true) ->
            Pandas.scanned better (seen ++ [x]) (Some (List.length seen, x))).
  { intros Hall. simpl. split.
    - rewrite nth_error_app2, Nat.sub_diag by lia. reflexivity.
    - intros j y Hj.
      apply nth_error_snoc in Hj. destruct Hj as [[Hlt Hj]|[-> ->]].
      + split; [apply better_asym|]; eauto.
      + split; [apply better_irrefl | lia]. }
  destruct best as [[i b]|].
  - destruct Inv as [Hi Hall].
    destruct (better x b) eqn:Hxb.
    + apply Hnew. intros j y Hj.
      apply (better_cotrans b x y); [|exact Hxb|apply (Hall j y Hj)].
      apply Hnan. eapply nth_error_In. eassumption.
    + assert (Hlt : (i < List.length seen)%nat)
        by (apply nth_error_Some; congruence).
      simpl. split; [rewrite nth_error_app1; assumption|].
      intros j y Hj.
      apply nth_error_snoc in Hj. destruct Hj as [[_ Hj]|[-> ->]].
      * auto.
      * split; [assumption | lia].
  - apply Hnew. intros j y Hj. simpl in Inv. subst seen.
    destruct j; discriminate.
Qed.

Lemma arg_first_scanned (xs seen : list F64.float64)
    (best : option (nat * F64.float64)) :
  Forall (fun y => F64.is_nan y = false) (seen ++ xs) ->
  Pandas.scanned better seen best ->
  Pandas.scanned better (seen ++ xs)
          (Pandas.arg_first better xs (List.length seen) best).
Proof.
  revert seen best. induction xs as [|x t IH]; intros seen best Hnan Inv.
  - simpl. rewrite app_nil_r. exact Inv.
  - simpl.
    assert (Hseen : Forall (fun y => F64.is_nan y = false) seen)
      by (apply Forall_app in Hnan; tauto).
    apply (scanned_step seen x _ Hseen) in Inv.
    replace (seen ++ x :: t) with ((seen ++ [x]) ++ t) in *
      by (rewrite <- app_assoc; reflexivity).
    specialize (IH (seen ++ [x]) _ Hnan Inv).
    rewrite length_app in IH. simpl in IH.
    replace (List.length seen + 1)%nat with (S (List.length seen)) in IH
      by lia.
    exact IH.
Qed.

Lemma arg_first_spec (xs : list F64.float64) :
  Forall (fun y => F64.is_nan y = false) xs ->
  Pandas.scanned better xs (Pandas.arg_first better xs O None).
Proof.
  intro H. apply (arg_first_scanned xs [] None H). reflexivity.
Qed.

Lemma nan_as_not_nan (fill : F64.float64) (xs : list F64.float64) :
  F64.is_nan fill = false ->
  Forall (fun y => F64.is_nan y = false) (map (Pandas.nan_as fill) xs).
Proof.
  intro Hf. apply Forall_forall. intros y Hy. apply in_map_iff in Hy.
  destruct Hy as [x [<- _]]. unfold Pandas.nan_as.
  destruct (F64.is_nan x) eqn:E; assumption.
Qed.

Lemma all_nan_iff (xs : list F64.float64) :
  forallb F64.is_nan xs = true <-> forall x, In x xs -> F64.is_nan x = true.
Proof. apply forallb_forall. Qed.

(** [idx_extreme] raises exactly on a series without a value that is not
    NaN; otherwise its result is a position of the series. *)
Lemma idx_extreme_none (fill : F64.float64) (xs : list F64.float64) :
  F64.is_nan fill = false ->
  (Pandas.idx_extreme better fill xs = None
   <-> forall x, In x xs -> F64.is_nan x = true).
Proof.
  intro Hf. unfold Pandas.idx_extreme.
  destruct (forallb F64.is_nan xs) eqn:E.
  - split; [intros _|reflexivity]. apply all_nan_iff. exact E.
  - split.
    + pose proof (arg_first_spec (map (Pandas.nan_as fill) xs)
                    (nan_as_not_nan fill xs Hf)) as Inv.
      destruct (Pandas.arg_first better (map (Pandas.nan_as fill) xs) O None)
        as [[i b]|]; [discriminate|].
      simpl in Inv. intros _. apply map_eq_nil in Inv. subst xs.
      intros x [].
    + intro H. apply all_nan_iff in H. congruence.
Qed.

Lemma idx_extreme_some (fill : F64.float64) (xs : list F64.float64)
    (i : nat) :
  F64.is_nan fill = false ->
  Pandas.idx_extreme better fill xs = Some i ->
  exists x,
    nth_error xs i = Some x
    /\ forall j y, nth_error xs j = Some y ->
         better (Pandas.nan_as fill y) (Pandas.nan_as fill x) = false
         /\ ((j < i)%nat ->
             better (Pandas.nan_as fill x) (Pandas.nan_as fill y) = true).
Proof.
  intros Hf. unfold Pandas.idx_extreme.
  destruct (forallb F64.is_nan xs); [discriminate|].
  pose proof (arg_first_spec (map (Pandas.nan_as fill) xs)
                (nan_as_not_nan fill xs Hf)) as Inv.
  destruct (Pandas.arg_first better (map (Pandas.nan_as fill) xs) O None)
    as [[i' b]|]; [|discriminate].
  simpl. intro H. inversion H; subst i'. simpl in Inv.
  destruct Inv as [Hi Hall].
  destruct (nth_error xs i) as [x|] eqn:Ex.
  - rewrite (map_nth_error _ _ _ Ex) in Hi. inversion Hi; subst b.
    exists x. split; [reflexivity|]. intros j y Hj.
    apply (Hall j). apply map_nth_error. exact Hj.
  - exfalso. apply nth_error_None in Ex.
    assert (i < List.length (map (Pandas.nan_as fill) xs))%nat
      by (apply nth_error_Some; congruence).
    rewrite length_map in *. lia.
Qed.

End IdxBest.

(** ** The summary: best configurations *)

Module SummaryFacts.
Import UnionPlot AggFacts JoinFacts.

Lemma sorted_nth_lt {A : Type} (lt : A -> A -> Prop) (l : list A) :
  StronglySorted lt l ->
  forall i j a b, nth_error l i = Some a -> nth_error l j = Some b ->
    (i < j)%nat -> lt a b.
Proof.
  induction 1 as [|x t Hs IH Hall]; intros i j a b Hi Hj Hlt.
  - destruct i; discriminate.
  - destruct j as [|j]; [lia|]. simpl in Hj.
    destruct i as [|i]; simpl in Hi.
    + inversion Hi; subst. rewrite Forall_forall in Hall.
      apply Hall. eapply nth_error_In. eassumption.
    + apply (IH i j); [assumption | assumption | lia].
Qed.

Section BestRow.

Variable beats : F64.float64 -> F64.float64 -> bool.
Variable fill : F64.float64.
Hypothesis beats_cotrans : forall b x y,
  F64.is_nan y = false -> beats x b = true -> beats y b = false ->
  beats x y = true.
Hypothesis beats_asym : forall x y, beats x y = true -> beats y x = false.
Hypothesis fill_not_nan : F64.is_nan fill = false.

Variable metric : Comparison.row -> F64.float64.
Variable df : list Comparison.row.

Lemma best_row_exists (r0 : Comparison.row) :
  In r0 df -> F64.is_nan (metric r0) = false ->
  exists r,
    loc_idx df (Pandas.idx_extreme beats fill (map metric df)) = Some r.
Proof.
  intros Hin Hnan.
  destruct (Pandas.idx_extreme beats fill (map metric df)) as [i|] eqn:E.
  - destruct (idx_extreme_some beats beats_cotrans beats_asym fill _ i
                fill_not_nan E) as [x [Hx _]].
    simpl. destruct (nth_error df i) as [r|] eqn:Er; [eauto|].
    rewrite nth_error_map, Er in Hx. discriminate.
  - pose proof (proj1 (idx_extreme_none beats beats_cotrans beats_asym
                         fill _ fill_not_nan) E) as Hall.
    rewrite (Hall (metric r0)) in Hnan; [discriminate|].
    apply in_map. exact Hin.
Qed.

Lemma best_row_none_iff :
  loc_idx df (Pandas.idx_extreme beats fill (map metric df)) = None
  <-> forall r, In r df -> F64.is_nan (metric r) = true.
Proof.
  split.
  - intros Hnone r Hr. destruct (F64.is_nan (metric r)) eqn:E;
      [reflexivity|].
    destruct (best_row_exists r Hr E) as [r' Hr']. congruence.
  - intro Hall.
    assert (E : Pandas.idx_extreme beats fill (map metric df) = None).
    { apply (idx_extreme_none beats beats_cotrans beats_asym fill _
               fill_not_nan).
      intros x Hx. apply in_map_iff in Hx. destruct Hx as [r [<- Hr]].
      auto. }
    rewrite E. reflexivity.
Qed.

Hypothesis df_sorted : StronglySorted pair_lt (map Comparison.key df).

Lemma best_row_first_extreme (r : Comparison.row) :
  loc_idx df (Pandas.idx_extreme beats fill (map metric df)) = Some r ->
  first_extreme beats fill metric df r.
Proof.
  intro H.
  destruct (Pandas.idx_extreme beats fill (map metric df)) as [i|] eqn:E;
    [|discriminate].
  simpl in H.
  destruct (idx_extreme_some beats beats_cotrans beats_asym fill _ i
              fill_not_nan E) as [x [Hx Hall]].
  rewrite (map_nth_error metric _ _ H) in Hx. inversion Hx; subst x.
  assert (Hmain : forall r', In r' df ->
            beats (Pandas.nan_as fill (metric r'))
                  (Pandas.nan_as fill (metric r)) = false
            /\ (pair_lt (Comparison.key r') (Comparison.key r) ->
                beats (Pandas.nan_as fill (metric r))
                      (Pandas.nan_as fill (metric r')) = true)).
  { intros r' Hin'. apply In_nth_error in Hin'. destruct Hin' as [j Hj].
    destruct (Hall j (metric r') (map_nth_error metric _ _ Hj)) as [H1 H2].
    split; [assumption|]. intro Hkey. apply H2.
    destruct (Nat.lt_trichotomy j i) as [Hlt|[Heq|Hgt]]; [assumption| |].
    - subst j. rewrite Hj in H. inversion H; subst r'.
      exfalso. exact (pair_lt_irrefl _ Hkey).
    - exfalso.
      pose proof (sorted_nth_lt pair_lt _ df_sorted i j
                    (Comparison.key r) (Comparison.key r')
                    (map_nth_error Comparison.key _ _ H)
                    (map_nth_error Comparison.key _ _ Hj) Hgt) as Hk.
      exact (pair_lt_irrefl _ (pair_lt_trans _ _ _ Hk Hkey)). }
  split; [eapply nth_error_In; eassumption|]. split; [exact Hmain|].
  intros r' Hin' Hnan' Hbeats.
  destruct (F64.is_nan (metric r)) eqn:Er; [|reflexivity].
  destruct (Hmain r' Hin') as [H1 _].
  unfold Pandas.nan_as in H1. rewrite Hnan', Er in H1. congruence.
Qed.

End BestRow.

Lemma larger_cotrans (b x y : F64.float64) :
  F64.is_nan y = false -> larger x b = true -> larger y b = false ->
  larger x y = true.
Proof. unfold larger. apply OrderFacts.ltb_above. Qed.

Lemma smaller_cotrans (b x y : F64.float64) :
  F64.is_nan y = false -> smaller x b = true -> smaller y b = false ->
  smaller x y = true.
Proof. unfold smaller. apply OrderFacts.ltb_below. Qed.

Lemma larger_asym (x y : F64.float64) :
  larger x y = true -> larger y x = false.
Proof. unfold larger. apply OrderFacts.ltb_asym. Qed.

Lemma smaller_asym (x y : F64.float64) :
  smaller x y = true -> smaller y x = false.
Proof. unfold smaller. apply OrderFacts.ltb_asym. Qed.

End SummaryFacts.

Module Summary.
Import UnionPlot AggFacts JoinFacts SummaryFacts.

(** C7, as the code has it.  Whenever some row of [comparison_df] has a
    speedup that is not NaN, [best_speed] is a row.  It is the first row,
    in ascending order of [(precision, num_days)], that reaches the
    largest speedup, a NaN being read as [-inf] and an infinite speedup
    taking part in the comparison; so it is a row without NaN as soon as
    some speedup is neither NaN nor [-inf].  The same holds for
    [best_efficiency] with [efficiency_score], and for [best_accuracy]
    with the smallest [error_pct], a NaN being read as [+inf]. *)
Theorem best_rows_first_extreme
    (union_df : list UnionDf.row) (exact_df : list ExactDf.row) :
  let df := comparison_df union_df exact_df in
  ((forall r0, In r0 df -> F64.is_nan (Comparison.speedup_factor r0) = false ->
      exists r, best_speed df = Some r)
   /\ (forall r, best_speed df = Some r ->
         first_extreme larger Pandas.ninf Comparison.speedup_factor df r))
  /\ ((forall r0, In r0 df -> F64.is_nan (Comparison.error_pct r0) = false ->
         exists r, best_accuracy df = Some r)
      /\ (forall r, best_accuracy df = Some r ->
            first_extreme smaller F64.pinf Comparison.error_pct df r))
  /\ ((forall r0, In r0 df ->
         F64.is_nan (Comparison.efficiency_score r0) = false ->
         exists r, best_efficiency df = Some r)
      /\ (forall r, best_efficiency df = Some r ->
            first_extreme larger Pandas.ninf
              Comparison.efficiency_score df r)).
Proof.
  cbv zeta.
  pose proof (comparison_df_sorted union_df exact_df) as Hs.
  split; [|split]; split.
  - apply (best_row_exists larger Pandas.ninf larger_cotrans larger_asym
             eq_refl).
  - apply (best_row_first_extreme larger Pandas.ninf larger_cotrans
             larger_asym eq_refl _ _ Hs).
  - apply (best_row_exists smaller F64.pinf smaller_cotrans smaller_asym
             eq_refl).
  - apply (best_row_first_extreme smaller F64.pinf smaller_cotrans
             smaller_asym eq_refl _ _ Hs).
  - apply (best_row_exists larger Pandas.ninf larger_cotrans larger_asym
             eq_refl).
  - apply (best_row_first_extreme larger Pandas.ninf larger_cotrans
             larger_asym eq_refl _ _ Hs).
Qed.

Lemma best_rows_first_extreme_witness :
  let df := comparison_df Examples.union_grid Examples.exact_grid in
  let r14 :=
    derive (agg_union ((10, 14),
                       Examples.grid_trials 10 14 (F64.of_Z 1) 1280))
           (agg_exact (14, [ExactDf.mk 14 Examples.f100 (F64.of_Z 2);
                            ExactDf.mk 14 Examples.f100 (F64.of_Z 2)])) in
  (exists r, best_speed df = Some r)
  /\ first_extreme larger Pandas.ninf Comparison.speedup_factor df r14.
Proof.
  cbv zeta. split.
  - apply (proj1 (proj1 (best_rows_first_extreme
                           Examples.union_grid Examples.exact_grid))
             (derive (agg_union ((10, 14),
                        Examples.grid_trials 10 14 (F64.of_Z 1) 1280))
                     (agg_exact (14, [ExactDf.mk 14 Examples.f100
                                        (F64.of_Z 2);
                                      ExactDf.mk 14 Examples.f100
                                        (F64.of_Z 2)])))).
    + right. left. reflexivity.
    + reflexivity.
  - apply (proj2 (proj1 (best_rows_first_extreme
                           Examples.union_grid Examples.exact_grid))).
    reflexivity.
Defined.

(** C7, the claim refuted.  The tables hold the three precisions 10, 12
    and 14 on the windows 7 and 14, so that every plot before the summary
    has its data.  The rows of precision 10 on window 14 and of precision
    12 on window 7 share the largest speedup 2.0; the row chosen is the
    one of window 14, not the one of the smaller window 7. *)
Lemma best_speed_tie_takes_larger_window :
  let df := comparison_df Examples.union_grid Examples.exact_grid in
  map Comparison.key df
  = [(10, 7); (10, 14); (12, 7); (12, 14); (14, 7); (14, 14)]
  /\ map Comparison.speedup_factor df
     = [F64.of_Z 1; F64.of_Z 2; F64.of_Z 2;
        F64.of_Z 1; F64.of_Z 1; F64.of_Z 1]
  /\ option_map Comparison.key (best_speed df) = Some (10, 14)
  /\ 7 < 14.
Proof. cbv zeta. repeat split; vm_compute; reflexivity. Qed.

End Summary.

(** ** Rounding keeps a quotient of positive integers non-negative *)

Module RoundFacts.

Lemma shr_1_nonneg (mrs : shr_record) :
  0 <= shr_m mrs -> 0 <= shr_m (shr_1 mrs).
Proof.
  destruct mrs as [m r s]. simpl.
  destruct m as [|p|p]; simpl; [lia | destruct p; simpl; lia | lia].
Qed.

Lemma iter_shr_1_nonneg (p : positive) (mrs : shr_record) :
  0 <= shr_m mrs -> 0 <= shr_m (iter_pos shr_1 p mrs).
Proof.
  revert mrs. induction p as [p IH|p IH|]; intros mrs H; simpl.
  - apply IH, IH, shr_1_nonneg, H.
  - apply IH, IH, H.
  - apply shr_1_nonneg, H.
Qed.

Lemma shr_nonneg (mrs : shr_record) (e n : Z) :
  0 <= shr_m mrs -> 0 <= shr_m (fst (shr mrs e n)).
Proof.
  intro H. unfold shr. destruct n; simpl; try assumption.
  apply iter_shr_1_nonneg, H.
Qed.

Lemma shr_fexp_nonneg (m e : Z) (l : location) :
  0 <= m -> 0 <= shr_m (fst (shr_fexp F64.prec F64.emax m e l)).
Proof.
  intro H. unfold shr_fexp. apply shr_nonneg.
  destruct l as [|[ | | ]]; simpl; assumption.
Qed.

Lemma round_nearest_even_nonneg (m : Z) (l : location) :
  0 <= m -> 0 <= round_nearest_even m l.
Proof.
  intro H. unfold round_nearest_even.
  destruct l as [|[ | | ]]; try destruct (Z.even m); lia.
Qed.

Lemma binary_round_aux_nonneg (mx ex : Z) (lx : location) :
  0 <= mx ->
  F64.is_nonneg (binary_round_aux F64.prec F64.emax false mx ex lx) = true.
Proof.
  intro H. unfold binary_round_aux.
  pose proof (shr_fexp_nonneg mx ex lx H) as H1.
  destruct (shr_fexp F64.prec F64.emax mx ex lx) as [mrs' e'].
  simpl in H1.
  pose proof (shr_fexp_nonneg
                (round_nearest_even (shr_m mrs') (loc_of_shr_record mrs'))
                e' loc_Exact
                (round_nearest_even_nonneg _ _ H1)) as H2.
  destruct (shr_fexp F64.prec F64.emax
              (round_nearest_even (shr_m mrs') (loc_of_shr_record mrs'))
              e' loc_Exact) as [mrs'' e''].
  simpl in H2.
  destruct (shr_m mrs'') as [|m|m]; [reflexivity| |lia].
  destruct (e'' <=? F64.emax - F64.prec); reflexivity.
Qed.

Lemma div_core_nonneg (m1 m2 : positive) (e1 e2 : Z) :
  0 <= fst (fst (SFdiv_core_binary F64.prec F64.emax
                   (Zpos m1) e1 (Zpos m2) e2)).
Proof.
  unfold SFdiv_core_binary.
  set (s := _ - _ - Z.min _ _).
  set (m' := match s with Z0 => _ | Zpos _ => _ | Zneg _ => _ end).
  assert (Hm : 0 <= m').
  { subst m'. destruct s; [lia | apply Z.shiftl_nonneg; lia | lia]. }
  pose proof (Z.div_pos m' (Zpos m2) Hm ltac:(lia)) as Hq.
  unfold Z.div in Hq.
  destruct (Z.div_eucl m' (Zpos m2)) as [q r]. exact Hq.
Qed.

Lemma of_decimal_nonneg (n : N) (k : nat) :
  F64.is_nonneg (F64.of_decimal n k) = true.
Proof.
  destruct n as [|p]; [reflexivity|].
  unfold F64.of_decimal, F64.div, SFdiv.
  pose proof (div_core_nonneg p (F64.pow10 k) 0 0) as H.
  destruct (SFdiv_core_binary F64.prec F64.emax
              (Zpos p) 0 (Zpos (F64.pow10 k)) 0) as [[mz ez] lz].
  simpl in H. simpl xorb. apply binary_round_aux_nonneg, H.
Qed.

End RoundFacts.

(** ** Ingestion *)

Module Ingestion.
Import PlotResults.
Open Scope list_scope.

Section ParseFacts.

Variable nd_value : N -> option N.

Lemma dot_no_digit : is_digit nd_value dot = false.
Proof. reflexivity. Qed.

Lemma py_float_nonneg (t : text) (v : F64.float64) :
  py_float nd_value t = Some v -> F64.is_nonneg v = true.
Proof.
  unfold py_float.
  destruct (span_digits nd_value t) as [int_part s2].
  destruct (is_empty int_part); [discriminate|].
  destruct s2 as [|c s3]; [discriminate|].
  destruct (c =? dot)%N; [|discriminate].
  destruct (span_digits nd_value s3) as [frac_part s4].
  destruct (is_empty frac_part || negb (is_empty s4)); [discriminate|].
  intro H. inversion H. apply RoundFacts.of_decimal_nonneg.
Qed.

Lemma span_digits_rebuild (s ds rest t : text) :
  span_digits nd_value s = (ds, rest) ->
  match t with [] => True | c :: _ => is_digit nd_value c = false end ->
  span_digits nd_value (ds ++ t) = (ds, t).
Proof.
  revert ds rest. induction s as [|c s IH]; intros ds rest H Ht.
  - inversion H; subst. simpl. destruct t as [|c t]; [reflexivity|].
    simpl. rewrite Ht. reflexivity.
  - simpl in H. destruct (is_digit nd_value c) eqn:E.
    + destruct (span_digits nd_value s) as [ds' rest'] eqn:Es.
      inversion H; subst. simpl. rewrite E.
      rewrite (IH ds' rest eq_refl Ht). reflexivity.
    + inversion H; subst. simpl. destruct t as [|c' t]; [reflexivity|].
      simpl. rewrite Ht. reflexivity.
Qed.

Lemma match_here_py_float (before after s g : text) :
  match_here nd_value before after s = Some g ->
  exists v, py_float nd_value g = Some v.
Proof.
  unfold match_here.
  destruct (drop_prefix before s) as [s1|]; [|discriminate].
  destruct (span_digits nd_value s1) as [int_part s2] eqn:E1.
  destruct (is_empty int_part) eqn:Ei; [discriminate|].
  destruct s2 as [|c s3]; [discriminate|].
  destruct (c =? dot)%N eqn:Ec; [|discriminate].
  destruct (span_digits nd_value s3) as [frac_part s4] eqn:E2.
  destruct (is_empty frac_part) eqn:Ef; [discriminate|].
  destruct (drop_prefix after s4); [|discriminate].
  intro H. inversion H; subst g. unfold py_float.
  rewrite (span_digits_rebuild s1 int_part _ (dot :: frac_part) E1
             dot_no_digit).
  rewrite Ei, N.eqb_refl.
  pose proof (span_digits_rebuild s3 frac_part _ [] E2 I) as E3.
  rewrite app_nil_r in E3. rewrite E3, Ef. simpl. eauto.
Qed.

Lemma re_search_py_float (before after s g : text) :
  re_search nd_value before after s = Some g ->
  exists v, py_float nd_value g = Some v.
Proof.
  induction s as [|c s IH]; simpl.
  - destruct (match_here nd_value before after []) as [g'|] eqn:E;
      [|discriminate].
    intro H. inversion H; subst. eapply match_here_py_float, E.
  - destruct (match_here nd_value before after (c :: s)) as [g'|] eqn:E.
    + intro H. inversion H; subst. eapply match_here_py_float, E.
    + exact IH.
Qed.

(** C10.  Whatever the digits of the Unicode database are,
    [parse_pgbench_summary] returns either [None] or a dictionary with
    exactly the keys ['tps'] and ['latency'], both mapped to floats that
    are not negative; every exception path ends in [None].  On a file
    that is read, the result is [None] exactly when the text has no match
    of one of the two patterns: so it is for a tps figure or a latency
    figure written without a decimal point, while the same summary with
    [5000.25] and [1.234] is parsed, and so is a tps figure written with
    the ARABIC-INDIC digits three and five, as 3.5. *)
Theorem parse_pgbench_summary_result :
  (forall base_path filename,
     parse_pgbench_summary nd_value base_path filename = None
     \/ exists tps latency,
          parse_pgbench_summary nd_value base_path filename
          = Some [("tps"%string, tps); ("latency"%string, latency)]
          /\ F64.is_nonneg tps = true /\ F64.is_nonneg latency = true)
  /\ (forall base_path filename content,
        base_path filename = Text content ->
        (parse_pgbench_summary nd_value base_path filename = None
         <-> re_search nd_value tps_before tps_after content = None
             \/ re_search nd_value lat_before lat_after content = None))
  /\ parse_pgbench_summary nd_value
       (Examples.results_with Examples.summary_integer_tps)
       Examples.summary_name = None
  /\ parse_pgbench_summary nd_value
       (Examples.results_with Examples.summary_integer_latency)
       Examples.summary_name = None
  /\ parse_pgbench_summary nd_value
       (Examples.results_with Examples.summary_decimal)
       Examples.summary_name
     = Some [("tps"%string, F64.of_decimal 500025 2);
             ("latency"%string, F64.of_decimal 1234 3)]
  /\ parse_pgbench_summary Examples.arabic_indic
       (Examples.results_with Examples.summary_arabic_indic)
       Examples.summary_name
     = Some [("tps"%string, F64.of_decimal 35 1);
             ("latency"%string, F64.of_decimal 10 1)].
Proof.
  split; [|split; [|repeat split; vm_compute; reflexivity]].
  - intros base_path filename. unfold parse_pgbench_summary.
    destruct (base_path filename) as [| |content]; auto.
    destruct (re_search nd_value tps_before tps_after content)
      as [tps_text|]; auto.
    destruct (re_search nd_value lat_before lat_after content)
      as [lat_text|]; auto.
    destruct (py_float nd_value tps_text) as [tps|] eqn:Ht; auto.
    destruct (py_float nd_value lat_text) as [latency|] eqn:Hl; auto.
    right. exists tps, latency. split; [reflexivity|].
    split; eapply py_float_nonneg; eassumption.
  - intros base_path filename content Hf. unfold parse_pgbench_summary.
    rewrite Hf.
    destruct (re_search nd_value tps_before tps_after content)
      as [tps_text|] eqn:Et; [|tauto].
    destruct (re_search nd_value lat_before lat_after content)
      as [lat_text|] eqn:El; [|tauto].
    destruct (re_search_py_float _ _ _ _ Et) as [tps ->].
    destruct (re_search_py_float _ _ _ _ El) as [latency ->].
    split; [discriminate | intros [H|H]; discriminate H].
Qed.

End ParseFacts.

Lemma parse_pgbench_summary_result_witness :
  parse_pgbench_summary Examples.arabic_indic
    (Examples.results_with Examples.summary_integer_tps)
    Examples.summary_name = None.
Proof.
  apply (proj2 (proj1 (proj2 (parse_pgbench_summary_result
                                Examples.arabic_indic))
                  (Examples.results_with Examples.summary_integer_tps)
                  Examples.summary_name Examples.summary_integer_tps
                  eq_refl)).
  left. reflexivity.
Defined.

Lemma and_then_Done (first next : outcome) (files : list string) :
  and_then first next = Done files <->
  exists l1 l2, first = Done l1 /\ next = Done l2 /\ files = l1 ++ l2.
Proof.
  unfold and_then. destruct first as [l1|l1], next as [l2|l2]; split;
    try discriminate;
    try (intros [a [b [H1 [H2 _]]]]; discriminate).
  - intro H. inversion H. exists l1, l2. auto.
  - intros [a [b [H1 [H2 ->]]]]. inversion H1; inversion H2; subst.
    reflexivity.
Qed.

Lemma saved_and_then (first next : outcome) :
  saved_files (and_then first next)
  = match first with
    | Done l1 => l1 ++ saved_files next
    | Raised l1 => l1
    end.
Proof. destruct first, next; reflexivity. Qed.

Section Sources.

Variable DataFrame : Type.
Variable read_csv : text -> option DataFrame.
Variable nd_value : N -> option N.
Variable render : rendering DataFrame.

Lemma bulk_files (e h : option DataFrame) (name : string) :
  In name (saved_files (plot_bulk_agg DataFrame render e h)) ->
  name = "1_bulk_agg_speed.png"%string
  \/ name = "2_bulk_agg_error.png"%string.
Proof.
  unfold plot_bulk_agg, image. destruct e as [e|], h as [h|];
    try (intros []).
  destruct (bulk_speed_ok DataFrame render e h);
    destruct (bulk_error_ok DataFrame render e h); simpl; intuition congruence.
Qed.

Lemma storage_files (s : option DataFrame) (name : string) :
  In name (saved_files (plot_storage DataFrame render s)) ->
  name = "3_storage_footprint.png"%string.
Proof.
  unfold plot_storage, image. destruct s as [s|]; [|intros []].
  destruct (storage_ok DataFrame render s); simpl; intuition congruence.
Qed.

Lemma hashing_files (h : option DataFrame) (name : string) :
  In name (saved_files (plot_hashing DataFrame render h)) ->
  name = "4_hashing_overhead.png"%string.
Proof.
  unfold plot_hashing, image. destruct h as [h|]; [|intros []].
  destruct (hashing_ok DataFrame render h); simpl; intuition congruence.
Qed.

Lemma pgbench_files
    (data : list (string * list (string * F64.float64))) (name : string) :
  In name (saved_files (plot_pgbench_results DataFrame render data)) ->
  name = "5_insert_tps.png"%string \/ name = "6_read_latency.png"%string.
Proof.
  unfold plot_pgbench_results, image. destruct data as [|d t]; [intros []|].
  destruct (existsb _ (d :: t)); destruct (existsb _ (d :: t));
    try destruct (insert_tps_ok DataFrame render (d :: t));
    try destruct (read_latency_ok DataFrame render (d :: t));
    simpl; intuition congruence.
Qed.

Lemma storage_saved_iff (s : option DataFrame) :
  In "3_storage_footprint.png"%string
     (saved_files (plot_storage DataFrame render s))
  <-> exists df, s = Some df /\ storage_ok DataFrame render df = true.
Proof.
  unfold plot_storage, image. destruct s as [s|].
  - destruct (storage_ok DataFrame render s) eqn:E; simpl.
    + split; [eauto | auto].
    + split; [intros [] | intros [df [H Hok]]].
      inversion H; subst. congruence.
  - simpl. split; [intros [] | intros [df [H _]]; discriminate].
Qed.

Lemma hashing_saved_iff (h : option DataFrame) :
  In "4_hashing_overhead.png"%string
     (saved_files (plot_hashing DataFrame render h))
  <-> exists df, h = Some df /\ hashing_ok DataFrame render df = true.
Proof.
  unfold plot_hashing, image. destruct h as [h|].
  - destruct (hashing_ok DataFrame render h) eqn:E; simpl.
    + split; [eauto | auto].
    + split; [intros [] | intros [df [H Hok]]].
      inversion H; subst. congruence.
  - simpl. split; [intros [] | intros [df [H _]]; discriminate].
Qed.

(** C9, as the code has it.  In [plot_results.py], [load_data] answers an
    absent file with [None], and a plotting step whose input is [None]
    returns without saving and without raising, so that [main] goes on
    with the next step.  [main] stops only when a step that has its data
    raises: the storage plot is saved exactly when the bulk step did not
    raise and the storage results load and are plotted without error,
    the hashing plot exactly when neither the bulk step nor the storage
    step raised and the hashing results load and are plotted without
    error.  In [union_plot.py] an absent input file ends the run with
    exit status 1, whichever of the two files it is, and in
    [plot_results_cardinality.py] it makes [main] return before any
    plot. *)
Theorem missing_source_per_script :
  (forall base_path filename,
     base_path filename = Absent ->
     load_data DataFrame read_csv base_path filename = None)
  /\ (forall other,
        plot_bulk_agg DataFrame render None other = Done []
        /\ plot_bulk_agg DataFrame render other None = Done []
        /\ plot_storage DataFrame render None = Done []
        /\ plot_hashing DataFrame render None = Done [])
  /\ (forall input_path,
        let load := load_data DataFrame read_csv input_path in
        let bulk :=
          plot_bulk_agg DataFrame render
            (load "01_results_bulk_exact.csv"%string)
            (load "01_results_bulk_hll.csv"%string) in
        let storage :=
          plot_storage DataFrame render
            (load "02_results_storage.csv"%string) in
        let saved :=
          saved_files (main DataFrame read_csv nd_value render input_path) in
        (In "3_storage_footprint.png"%string saved
         <-> (exists files, bulk = Done files)
             /\ exists df, load "02_results_storage.csv"%string = Some df
                           /\ storage_ok DataFrame render df = true)
        /\ (In "4_hashing_overhead.png"%string saved
            <-> (exists files, bulk = Done files)
                /\ (exists files, storage = Done files)
                /\ exists df, load "03_results_hashing.csv"%string = Some df
                              /\ hashing_ok DataFrame render df = true))
  /\ (forall d,
        UnionScript.union_detailed_csv d = None
        \/ UnionScript.exact_detailed_csv d = None ->
        UnionScript.run d = UnionScript.Exit 1)
  /\ (forall d,
        Cardinality.exact_csv DataFrame d = None
        \/ Cardinality.hll_csv DataFrame d = None ->
        Cardinality.main DataFrame d = []).
Proof.
  split; [|split; [|split; [|split]]].
  - intros base_path filename H. unfold load_data. rewrite H. reflexivity.
  - intro other. repeat split. destruct other; reflexivity.
  - intro input_path. cbv zeta. unfold main.
    set (bulk := plot_bulk_agg DataFrame render _ _).
    set (storage := plot_storage DataFrame render _).
    set (hashing := plot_hashing DataFrame render _).
    set (pg := plot_pgbench_results DataFrame render _).
    assert (Hbulk : forall name, In name (saved_files bulk) ->
              name = "1_bulk_agg_speed.png"%string
              \/ name = "2_bulk_agg_error.png"%string)
      by (apply bulk_files).
    assert (Hpg : forall name, In name (saved_files pg) ->
              name = "5_insert_tps.png"%string
              \/ name = "6_read_latency.png"%string)
      by (apply pgbench_files).
    assert (Hst : forall name, In name (saved_files storage) ->
              name = "3_storage_footprint.png"%string)
      by (apply storage_files).
    assert (Hha : forall name, In name (saved_files hashing) ->
              name = "4_hashing_overhead.png"%string)
      by (apply hashing_files).
    pose proof (storage_saved_iff
                  (load_data DataFrame read_csv input_path
                     "02_results_storage.csv"%string)) as Hs3.
    pose proof (hashing_saved_iff
                  (load_data DataFrame read_csv input_path
                     "03_results_hashing.csv"%string)) as Hs4.
    fold storage in Hs3. fold hashing in Hs4.
    clearbody bulk pg. rewrite !saved_and_then.
    split.
    + destruct bulk as [lb|lb]; simpl.
      * rewrite in_app_iff.
        destruct storage as [ls|ls]; simpl in *.
        -- rewrite in_app_iff. split.
           ++ intros [H|[H|H]].
              ** destruct (Hbulk _ H) as [E|E]; discriminate E.
              ** split; [eauto | apply Hs3; exact H].
              ** exfalso. destruct hashing as [lh|lh]; simpl in *.
                 --- apply in_app_iff in H. destruct H as [H|H].
                     +++ specialize (Hha _ H). discriminate Hha.
                     +++ destruct (Hpg _ H) as [E|E]; discriminate E.
                 --- specialize (Hha _ H). discriminate Hha.
           ++ intros [_ H]. right. left. apply Hs3. exact H.
        -- split.
           ++ intros [H|H].
              ** destruct (Hbulk _ H) as [E|E]; discriminate E.
              ** split; [eauto | apply Hs3; exact H].
           ++ intros [_ H]. right. apply Hs3. exact H.
      * split.
        -- intro H. destruct (Hbulk _ H) as [E|E]; discriminate E.
        -- intros [[files H] _]. discriminate H.
    + destruct bulk as [lb|lb]; simpl.
      * rewrite in_app_iff.
        destruct storage as [ls|ls]; simpl in *.
        -- rewrite in_app_iff. split.
           ++ intros [H|[H|H]].
              ** destruct (Hbulk _ H) as [E|E]; discriminate E.
              ** specialize (Hst _ H). discriminate Hst.
              ** split; [eauto|]. split; [eauto|]. apply Hs4.
                 destruct hashing as [lh|lh]; simpl in *;
                   [|exact H].
                 apply in_app_iff in H. destruct H as [H|H]; [exact H|].
                 destruct (Hpg _ H) as [E|E]; discriminate E.
           ++ intros [_ [_ H]]. right. right. apply Hs4 in H.
              destruct hashing as [lh|lh]; simpl in *;
                [apply in_app_iff; left; exact H | exact H].
        -- split.
           ++ intros [H|H].
              ** destruct (Hbulk _ H) as [E|E]; discriminate E.
              ** specialize (Hst _ H). discriminate Hst.
           ++ intros [_ [[files H] _]]. discriminate H.
      * split.
        -- intro H. destruct (Hbulk _ H) as [E|E]; discriminate E.
        -- intros [[files H] _]. discriminate H.
  - intros d H. unfold UnionScript.run, UnionScript.load.
    destruct (UnionScript.union_detailed_csv d); [|reflexivity].
    destruct (UnionScript.exact_detailed_csv d); [|reflexivity].
    destruct H; discriminate.
  - intros d H. unfold Cardinality.main.
    destruct (Cardinality.exact_csv DataFrame d); [|reflexivity].
    destruct (Cardinality.hll_csv DataFrame d); [|reflexivity].
    destruct H; discriminate.
Qed.

End Sources.

Lemma missing_source_per_script_witness :
  load_data unit Examples.read_any Examples.results_without_hashing
    "03_results_hashing.csv" = None
  /\ In "3_storage_footprint.png"%string
        (saved_files
           (main unit Examples.read_any Examples.arabic_indic
              Examples.render_all Examples.results_without_hashing))
  /\ UnionScript.run Examples.tables_exact_only = UnionScript.Exit 1.
Proof.
  pose proof (missing_source_per_script unit Examples.read_any
                Examples.arabic_indic Examples.render_all)
    as [Hload [_ [Hmain [Hexit _]]]].
  split; [apply Hload; reflexivity|]. split.
  - apply (proj1 (Hmain Examples.results_without_hashing)). split.
    + eexists. reflexivity.
    + exists tt. split; reflexivity.
  - apply Hexit. left. reflexivity.
Defined.

(** C9, the claim refuted.  With the exact trials on disk and the
    approximate trials absent, the run of [union_plot.py] ends with exit
    status 1: the aggregation of the exact trials, which needs the exact
    trials alone and has a row to give, is not carried out. *)
Lemma missing_union_source_aborts_run :
  UnionScript.exact_detailed_csv Examples.tables_exact_only
  = Some Examples.exact_single
  /\ UnionPlot.exact_stats Examples.exact_single <> []
  /\ UnionScript.run Examples.tables_exact_only = UnionScript.Exit 1
  /\ forall comparison,
       UnionScript.run Examples.tables_exact_only
       <> UnionScript.Completed comparison.
Proof.
  split; [reflexivity|]. split; [discriminate|].
  split; [reflexivity|]. intros comparison H. discriminate H.
Qed.

End Ingestion.

(** ** Groups as a partition of the trials *)

Section PartitionFacts.

Context {K R : Type}.
Variable key : R -> K.
Variable kltb : K -> K -> bool.
Variable keqb : K -> K -> bool.
Variable lt : K -> K -> Prop.

Hypothesis kltb_lt : forall a b, kltb a b = true <-> lt a b.
Hypothesis keqb_eq : forall a b, keqb a b = true <-> a = b.
Hypothesis lt_irrefl : forall a, ~ lt a a.
Hypothesis lt_trans : forall a b c, lt a b -> lt b c -> lt a c.
Hypothesis lt_total : forall a b, lt a b \/ a = b \/ lt b a.

Lemma filter_split_perm (f g : R -> bool) (l : list R) :
  (forall r, f r = true -> g r = false) ->
  Permutation (filter (fun r => f r || g r) l) (filter f l ++ filter g l).
Proof.
  intro Hfg. induction l as [|a l IH]; simpl; [constructor|].
  destruct (f a) eqn:Ef; simpl.
  - rewrite (Hfg a Ef). constructor. exact IH.
  - destruct (g a) eqn:Eg.
    + apply Permutation_cons_app. exact IH.
    + exact IH.
Qed.

Lemma filter_all (f : R -> bool) (l : list R) :
  (forall r, In r l -> f r = true) -> filter f l = l.
Proof.
  induction l as [|a l IH]; simpl; intro H; [reflexivity|].
  rewrite (H a (or_introl eq_refl)). f_equal. apply IH. auto.
Qed.

Lemma groups_of_keys_perm (rows : list R) (ks : list K) :
  NoDup ks ->
  Permutation
    (filter (fun r => existsb (keqb (key r)) ks) rows)
    (flat_map (Pandas.group_rows key keqb rows) ks).
Proof.
  induction 1 as [|k t Hnot Hnd IH]; simpl.
  - induction rows; simpl; auto.
  - eapply Permutation_trans.
    + apply (filter_split_perm (fun r => keqb (key r) k)
               (fun r => existsb (keqb (key r)) t)).
      intros r Hr. apply keqb_eq in Hr.
      destruct (existsb (keqb (key r)) t) eqn:E; [|reflexivity].
      apply existsb_exists in E. destruct E as [k' [Hin Hk']].
      apply keqb_eq in Hk'. subst. contradiction.
    + apply Permutation_app_head. exact IH.
Qed.

Lemma groups_partition (rows : list R) :
  Permutation rows
    (flat_map (Pandas.group_rows key keqb rows)
              (Pandas.group_keys key kltb keqb rows)).
Proof.
  eapply Permutation_trans;
    [|apply groups_of_keys_perm;
      apply (sorted_NoDup lt lt_irrefl);
      apply (group_keys_sorted key kltb keqb lt kltb_lt keqb_eq
               lt_trans lt_total)].
  rewrite filter_all; [apply Permutation_refl|].
  intros r Hr. apply existsb_exists. exists (key r). split.
  - apply (group_keys_In key kltb keqb keqb_eq). apply in_map. exact Hr.
  - apply keqb_eq. reflexivity.
Qed.

(** Two strictly ascending lists with the same members are the same
    list. *)
Lemma sorted_same_members (l1 l2 : list K) :
  StronglySorted lt l1 -> StronglySorted lt l2 ->
  (forall x, In x l1 <-> In x l2) -> l1 = l2.
Proof.
  intro H1. revert l2.
  induction H1 as [|a t Hs IH Hall]; intros l2 H2 Hmem.
  - destruct l2 as [|b t2]; [reflexivity|].
    exfalso. apply (Hmem b). left. reflexivity.
  - destruct H2 as [|b t2 Hs2 Hall2].
    + exfalso. apply (Hmem a). left. reflexivity.
    + rewrite Forall_forall in Hall, Hall2.
      assert (Hab : a = b).
      { destruct (proj1 (Hmem a) (or_introl eq_refl)) as [E|Hin];
          [auto|].
        destruct (proj2 (Hmem b) (or_introl eq_refl)) as [E|Hin'];
          [auto|].
        exfalso. apply (lt_irrefl a).
        apply (lt_trans a b a); auto. }
      subst b. f_equal. apply IH; [assumption|].
      intro x. split; intro Hx.
      * destruct (proj1 (Hmem x) (or_intror Hx)) as [E|Hin]; [|exact Hin].
        subst x. exfalso. exact (lt_irrefl a (Hall a Hx)).
      * destruct (proj2 (Hmem x) (or_intror Hx)) as [E|Hin]; [|exact Hin].
        subst x. exfalso. exact (lt_irrefl a (Hall2 a Hx)).
Qed.

Lemma group_keys_perm (rows rows' : list R) :
  Permutation rows rows' ->
  Pandas.group_keys key kltb keqb rows
  = Pandas.group_keys key kltb keqb rows'.
Proof.
  intro HP. apply sorted_same_members.
  - apply (group_keys_sorted key kltb keqb lt kltb_lt keqb_eq
             lt_trans lt_total).
  - apply (group_keys_sorted key kltb keqb lt kltb_lt keqb_eq
             lt_trans lt_total).
  - intro x. rewrite !(group_keys_In key kltb keqb keqb_eq).
    split; apply Permutation_in.
    + apply Permutation_map. exact HP.
    + apply Permutation_map, Permutation_sym. exact HP.
Qed.

End PartitionFacts.

(** ** Further properties of the aggregation and of the join *)

Module PipelineFacts.
Import UnionPlot AggFacts JoinFacts.

Lemma NoDup_map_eq {A B : Type} (f : A -> B) (l : list A) (a b : A) :
  NoDup (map f l) -> In a l -> In b l -> f a = f b -> a = b.
Proof.
  induction l as [|x l IH]; simpl; intros Hnd Ha Hb Hf; [contradiction|].
  inversion Hnd as [|? ? Hnot Hnd']; subst.
  destruct Ha as [->|Ha], Hb as [->|Hb].
  - reflexivity.
  - exfalso. apply Hnot. rewrite Hf. apply in_map. exact Hb.
  - exfalso. apply Hnot. rewrite <- Hf. apply in_map. exact Ha.
  - apply IH; assumption.
Qed.

Lemma exact_window_In (exact_df : list ExactDf.row) (d : Z) :
  In d (map ExactStats.num_days (exact_stats exact_df))
  <-> In d (map ExactDf.num_days exact_df).
Proof.
  rewrite exact_stats_keys.
  apply (group_keys_In ExactDf.num_days Z.ltb Z.eqb Z.eqb_eq).
Qed.

Lemma union_key_In (union_df : list UnionDf.row) (k : Z * Z) :
  In k (map UnionStats.key (union_stats union_df))
  <-> In k (map union_key union_df).
Proof.
  rewrite union_stats_keys.
  apply (group_keys_In union_key pair_ltb pair_eqb pair_eqb_eq).
Qed.

(** X1.  The groups behind the rows of an aggregated table partition the
    trial table: put one after the other they are a rearrangement of the
    trials, so that every trial is counted in exactly one aggregated row;
    and no group is empty. *)
Theorem groups_partition_trials
    (union_df : list UnionDf.row) (exact_df : list ExactDf.row) :
  (Permutation union_df
     (flat_map (fun r => union_group union_df (UnionStats.key r))
               (union_stats union_df))
   /\ forall r, In r (union_stats union_df) ->
        union_group union_df (UnionStats.key r) <> [])
  /\ (Permutation exact_df
        (flat_map (fun r => exact_group exact_df (ExactStats.num_days r))
                  (exact_stats exact_df))
      /\ forall r, In r (exact_stats exact_df) ->
           exact_group exact_df (ExactStats.num_days r) <> []).
Proof.
  split; split.
  - replace (flat_map (fun r => union_group union_df (UnionStats.key r))
               (union_stats union_df))
      with (flat_map (union_group union_df)
              (map UnionStats.key (union_stats union_df)))
      by (rewrite !flat_map_concat_map, map_map; reflexivity).
    rewrite union_stats_keys.
    apply (groups_partition union_key pair_ltb pair_eqb pair_lt
             pair_ltb_lt pair_eqb_eq pair_lt_irrefl pair_lt_trans
             pair_lt_total).
  - intros r Hr. apply union_stats_In in Hr. destruct Hr as [Hk _].
    apply (group_rows_nonempty union_key pair_eqb pair_eqb_eq). exact Hk.
  - replace (flat_map (fun r => exact_group exact_df (ExactStats.num_days r))
               (exact_stats exact_df))
      with (flat_map (exact_group exact_df)
              (map ExactStats.num_days (exact_stats exact_df)))
      by (rewrite !flat_map_concat_map, map_map; reflexivity).
    rewrite exact_stats_keys.
    apply (groups_partition ExactDf.num_days Z.ltb Z.eqb Z.lt
             Z.ltb_lt Z.eqb_eq Z.lt_irrefl Z.lt_trans Z_lt_total).
  - intros r Hr. apply exact_stats_In in Hr. destruct Hr as [Hk _].
    apply (group_rows_nonempty ExactDf.num_days Z.eqb Z.eqb_eq). exact Hk.
Qed.

(** X2.  Which configurations the tables list, and in which order, does
    not depend on the order of the trial rows: rearranging the rows of
    the two input tables leaves the key columns of [union_stats],
    [exact_stats] and [comparison_df] unchanged. *)
Theorem keys_independent_of_row_order
    (union_df union_df' : list UnionDf.row)
    (exact_df exact_df' : list ExactDf.row) :
  Permutation union_df union_df' ->
  Permutation exact_df exact_df' ->
  map UnionStats.key (union_stats union_df)
  = map UnionStats.key (union_stats union_df')
  /\ map ExactStats.num_days (exact_stats exact_df)
     = map ExactStats.num_days (exact_stats exact_df')
  /\ map Comparison.key (comparison_df union_df exact_df)
     = map Comparison.key (comparison_df union_df' exact_df').
Proof.
  intros HU HE.
  assert (Hu : map UnionStats.key (union_stats union_df)
               = map UnionStats.key (union_stats union_df')).
  { rewrite !union_stats_keys.
    apply (group_keys_perm union_key pair_ltb pair_eqb pair_lt
             pair_ltb_lt pair_eqb_eq pair_lt_irrefl pair_lt_trans
             pair_lt_total). exact HU. }
  assert (He : map ExactStats.num_days (exact_stats exact_df)
               = map ExactStats.num_days (exact_stats exact_df')).
  { rewrite !exact_stats_keys.
    apply (group_keys_perm ExactDf.num_days Z.ltb Z.eqb Z.lt
             Z.ltb_lt Z.eqb_eq Z.lt_irrefl Z.lt_trans Z_lt_total).
    exact HE. }
  split; [exact Hu|]. split; [exact He|].
  rewrite !comparison_df_keys, Hu, He. reflexivity.
Qed.

Lemma keys_independent_of_row_order_witness :
  map Comparison.key
      (comparison_df Examples.union_tie Examples.exact_tie)
  = map Comparison.key
      (comparison_df (rev Examples.union_tie) (rev Examples.exact_tie)).
Proof.
  apply (keys_independent_of_row_order
           Examples.union_tie (rev Examples.union_tie)
           Examples.exact_tie (rev Examples.exact_tie)).
  - apply Permutation_rev.
  - apply Permutation_rev.
Defined.

(** X3.  One exact baseline serves all precisions of a window: two rows
    of [comparison_df] with the same [num_days] carry the same exact
    count, exact time and exact standard deviation. *)
Theorem exact_baseline_shared
    (union_df : list UnionDf.row) (exact_df : list ExactDf.row)
    (r1 r2 : Comparison.row) :
  In r1 (comparison_df union_df exact_df) ->
  In r2 (comparison_df union_df exact_df) ->
  Comparison.num_days r1 = Comparison.num_days r2 ->
  Comparison.exact_count r1 = Comparison.exact_count r2
  /\ Comparison.exact_time_ms r1 = Comparison.exact_time_ms r2
  /\ Comparison.exact_stddev_ms r1 = Comparison.exact_stddev_ms r2.
Proof.
  intros H1 H2 Hd.
  apply comparison_df_In in H1. destruct H1 as [u1 [e1 [_ [He1 [Hd1 ->]]]]].
  apply comparison_df_In in H2. destruct H2 as [u2 [e2 [_ [He2 [Hd2 ->]]]]].
  simpl in Hd.
  assert (e1 = e2).
  { apply (NoDup_map_eq ExactStats.num_days (exact_stats exact_df));
      [apply exact_stats_NoDup | assumption | assumption | congruence]. }
  subst e2. repeat split.
Qed.

Lemma exact_baseline_shared_witness :
  let e := agg_exact (7, Examples.exact_single) in
  let r1 :=
    derive (agg_union ((10, 7), [UnionDf.mk 10 7 Examples.f100
                                   (F64.of_decimal 5 1) 1280])) e in
  let r2 :=
    derive (agg_union ((12, 7), [UnionDf.mk 12 7 Examples.f100
                                   (F64.of_decimal 6 1) 5120])) e in
  Comparison.exact_count r1 = Comparison.exact_count r2
  /\ Comparison.exact_time_ms r1 = Comparison.exact_time_ms r2
  /\ Comparison.exact_stddev_ms r1 = Comparison.exact_stddev_ms r2.
Proof.
  cbv zeta.
  apply (exact_baseline_shared
           Examples.union_two_precisions Examples.exact_single).
  - left. reflexivity.
  - right. left. reflexivity.
  - reflexivity.
Defined.

(** X4.  When every window of the approximate trials also has exact
    trials, the join loses no configuration: [comparison_df] has the same
    key pairs as [union_stats], in the same order. *)
Theorem join_keeps_all_when_windows_covered
    (union_df : list UnionDf.row) (exact_df : list ExactDf.row) :
  (forall u, In u union_df ->
     In (UnionDf.num_days u) (map ExactDf.num_days exact_df)) ->
  map Comparison.key (comparison_df union_df exact_df)
  = map UnionStats.key (union_stats union_df).
Proof.
  intro Hcov. rewrite comparison_df_keys.
  apply filter_all. intros k Hk.
  apply existsb_eqb_In, exact_window_In.
  apply union_key_In in Hk. apply in_map_iff in Hk.
  destruct Hk as [u [<- Hu]]. simpl. apply Hcov. exact Hu.
Qed.

Lemma join_keeps_all_when_windows_covered_witness :
  map Comparison.key
      (comparison_df Examples.union_tie Examples.exact_tie)
  = map UnionStats.key (union_stats Examples.union_tie).
Proof.
  apply join_keeps_all_when_windows_covered.
  intros u [<-|[<-|[]]]; simpl; auto.
Defined.

(** X5.  [comparison_df] is empty exactly when no approximate trial and
    exact trial have the same [num_days]. *)
Theorem comparison_empty_iff_no_common_window
    (union_df : list UnionDf.row) (exact_df : list ExactDf.row) :
  comparison_df union_df exact_df = [] <->
  forall u e, In u union_df -> In e exact_df ->
    UnionDf.num_days u <> ExactDf.num_days e.
Proof.
  split.
  - intros Hnil u e Hu He Hd.
    assert (Hk : In (union_key u)
                    (map Comparison.key (comparison_df union_df exact_df))).
    { rewrite comparison_df_keys. apply filter_In. split.
      - apply union_key_In. apply in_map. exact Hu.
      - apply existsb_eqb_In, exact_window_In. simpl. rewrite Hd.
        apply in_map. exact He. }
    rewrite Hnil in Hk. exact Hk.
  - intro Hno.
    destruct (comparison_df union_df exact_df) as [|r t] eqn:E;
      [reflexivity|].
    exfalso.
    assert (Hk : In (Comparison.key r)
                    (map Comparison.key (comparison_df union_df exact_df)))
      by (rewrite E; left; reflexivity).
    rewrite comparison_df_keys in Hk. apply filter_In in Hk.
    destruct Hk as [Hk Hd].
    apply union_key_In, in_map_iff in Hk. destruct Hk as [u [Hku Hu]].
    apply existsb_eqb_In, exact_window_In, in_map_iff in Hd.
    destruct Hd as [e [Hde He]].
    apply (Hno u e Hu He). rewrite Hde, <- Hku. reflexivity.
Qed.

(** X6.  The rows of [comparison_df] are in strictly ascending order of
    [(precision, num_days)], and there are no more of them than rows of
    [union_stats], which has no more rows than there are approximate
    trials. *)
Theorem comparison_rows_ascending
    (union_df : list UnionDf.row) (exact_df : list ExactDf.row) :
  StronglySorted pair_lt
    (map Comparison.key (comparison_df union_df exact_df))
  /\ (List.length (comparison_df union_df exact_df)
      <= List.length (union_stats union_df))%nat
  /\ (List.length (union_stats union_df) <= List.length union_df)%nat.
Proof.
  split; [apply comparison_df_sorted|]. split.
  - rewrite <- (length_map Comparison.key), comparison_df_keys.
    rewrite <- (length_map UnionStats.key (union_stats union_df)).
    apply filter_length_le.
  - rewrite <- (length_map UnionStats.key), <- (length_map union_key).
    apply NoDup_incl_length; [apply union_stats_NoDup|].
    intros k Hk. apply union_key_In. exact Hk.
Qed.

End PipelineFacts.

(** ** Signs of the derived metrics *)

Module SignFacts.
Import Sign.

Lemma nonneg_not_negative (x : F64.float64) :
  F64.is_nonneg x = true -> not_negative x = true.
Proof. unfold not_negative. intros ->. apply orb_true_r. Qed.

Lemma binary_round_nonneg (m : positive) (e : Z) :
  F64.is_nonneg (binary_round F64.prec F64.emax false m e) = true.
Proof.
  unfold binary_round.
  destruct (shl_align m e _) as [mz ez].
  apply RoundFacts.binary_round_aux_nonneg. lia.
Qed.

Lemma of_Z_nonneg (n : Z) : 0 <= n -> F64.is_nonneg (F64.of_Z n) = true.
Proof.
  intro H. unfold F64.of_Z, binary_normalize.
  destruct n as [|p|p]; [reflexivity | apply binary_round_nonneg | lia].
Qed.

Lemma add_not_negative (x y : F64.float64) :
  not_negative x = true -> not_negative y = true ->
  not_negative (F64.add x y) = true.
Proof.
  unfold not_negative.
  destruct x as [[|]|[|]| |[|] mx ex], y as [[|]|[|]| |[|] my ey];
    simpl; try discriminate; try reflexivity.
  intros _ _. unfold F64.add, SFadd.
  destruct (shl_align mx ex (Z.min ex ey)) as [ax ?].
  destruct (shl_align my ey (Z.min ex ey)) as [ay ?].
  cbn [fst cond_Zopp Z.add binary_normalize].
  rewrite binary_round_nonneg. apply orb_true_r.
Qed.

Lemma div_not_negative (x y : F64.float64) :
  not_negative x = true -> not_negative y = true ->
  not_negative (F64.div x y) = true.
Proof.
  unfold not_negative.
  destruct x as [[|]|[|]| |[|] mx ex], y as [[|]|[|]| |[|] my ey];
    simpl; try discriminate; try reflexivity.
  intros _ _. unfold F64.div, SFdiv.
  pose proof (RoundFacts.div_core_nonneg mx my ex ey) as H.
  destruct (SFdiv_core_binary F64.prec F64.emax (Zpos mx) ex (Zpos my) ey)
    as [[mz ez] lz].
  simpl in H. simpl xorb.
  rewrite (RoundFacts.binary_round_aux_nonneg mz ez lz H).
  apply orb_true_r.
Qed.

Lemma mul_not_negative (x y : F64.float64) :
  not_negative x = true -> not_negative y = true ->
  not_negative (F64.mul x y) = true.
Proof.
  unfold not_negative.
  destruct x as [[|]|[|]| |[|] mx ex], y as [[|]|[|]| |[|] my ey];
    simpl; try discriminate; try reflexivity.
  intros _ _. unfold F64.mul, SFmul. simpl xorb.
  rewrite RoundFacts.binary_round_aux_nonneg by lia.
  apply orb_true_r.
Qed.

Lemma abs_not_negative (x : F64.float64) :
  not_negative (F64.abs x) = true.
Proof. destruct x; reflexivity. Qed.

Lemma sum_not_negative (xs : list F64.float64) (acc : F64.float64) :
  not_negative acc = true ->
  Forall (fun x => not_negative x = true) xs ->
  not_negative (fold_left F64.add xs acc) = true.
Proof.
  revert acc. induction xs as [|x t IH]; intros acc Hacc Hall; simpl.
  - exact Hacc.
  - inversion Hall; subst. apply IH; [|assumption].
    apply add_not_negative; assumption.
Qed.

Lemma mean_not_negative (xs : list F64.float64) :
  Forall (fun x => not_negative x = true) xs ->
  not_negative (Pandas.mean xs) = true.
Proof.
  intro Hall. unfold Pandas.mean.
  destruct (Pandas.dropna xs) as [|y ys] eqn:E; [reflexivity|].
  apply div_not_negative.
  - apply sum_not_negative; [reflexivity|]. rewrite <- E.
    unfold Pandas.dropna. rewrite Forall_forall in *.
    intros x Hx. apply filter_In in Hx. apply Hall. tauto.
  - apply nonneg_not_negative, of_Z_nonneg. unfold Pandas.count. lia.
Qed.

End SignFacts.

Module MetricFacts.
Import UnionPlot AggFacts JoinFacts Sign SignFacts.

Lemma map_not_negative {A : Type} (f : A -> F64.float64)
    (keep : A -> bool) (l : list A) :
  (forall a, In a l -> not_negative (f a) = true) ->
  Forall (fun x => not_negative x = true) (map f (filter keep l)).
Proof.
  intro H. rewrite Forall_forall. intros x Hx.
  apply in_map_iff in Hx. destruct Hx as [a [<- Ha]].
  apply filter_In in Ha. apply H. tauto.
Qed.

(** X7.  No derived metric is a negative number.  [error_absolute] is
    never negative; when no query time and no exact count of the trials
    is negative, [error_pct], [speedup_factor] and [efficiency_score] of
    every row of [comparison_df] are NaN, zero, positive or [+inf], and
    so is [sketch_size_kb] for a sketch size that is not negative. *)
Theorem derived_metrics_not_negative
    (union_df : list UnionDf.row) (exact_df : list ExactDf.row)
    (r : Comparison.row) :
  (forall u, In u union_df ->
     not_negative (UnionDf.query_time_ms u) = true) ->
  (forall e, In e exact_df ->
     not_negative (ExactDf.query_time_ms e) = true
     /\ not_negative (ExactDf.exact_count e) = true) ->
  In r (comparison_df union_df exact_df) ->
  not_negative (Comparison.error_absolute r) = true
  /\ not_negative (Comparison.error_pct r) = true
  /\ not_negative (Comparison.speedup_factor r) = true
  /\ not_negative (Comparison.efficiency_score r) = true
  /\ (0 <= Comparison.total_sketch_bytes r ->
      not_negative (Comparison.sketch_size_kb r) = true).
Proof.
  intros HU HE Hr. apply comparison_df_In in Hr.
  destruct Hr as [u [e [Hu [He [_ ->]]]]].
  apply union_stats_In in Hu. destruct Hu as [_ Hu].
  apply exact_stats_In in He. destruct He as [_ He].
  assert (Hut : not_negative (UnionStats.union_time_ms u) = true).
  { rewrite Hu. simpl. apply mean_not_negative, map_not_negative. exact HU. }
  assert (Het : not_negative (ExactStats.exact_time_ms e) = true).
  { rewrite He. simpl. apply mean_not_negative, map_not_negative.
    intros a Ha. apply (HE a Ha). }
  assert (Hec : not_negative (ExactStats.exact_count e) = true).
  { rewrite He. simpl. apply mean_not_negative, map_not_negative.
    intros a Ha. apply (HE a Ha). }
  assert (Hpct : not_negative (Comparison.error_pct (derive u e)) = true).
  { simpl. apply mul_not_negative.
    - apply div_not_negative; [apply abs_not_negative | exact Hec].
    - reflexivity. }
  assert (Hsp : not_negative (Comparison.speedup_factor (derive u e)) = true).
  { simpl. apply div_not_negative; assumption. }
  split; [apply abs_not_negative|]. split; [exact Hpct|].
  split; [exact Hsp|]. split.
  - apply div_not_negative; assumption.
  - intro Hsz. simpl. apply div_not_negative.
    + apply nonneg_not_negative, of_Z_nonneg. exact Hsz.
    + reflexivity.
Qed.

Lemma derived_metrics_not_negative_witness :
  let r :=
    derive (agg_union ((10, 7), Examples.union_single))
           (agg_exact (7, Examples.exact_single)) in
  not_negative (Comparison.error_absolute r) = true
  /\ not_negative (Comparison.error_pct r) = true
  /\ not_negative (Comparison.speedup_factor r) = true
  /\ not_negative (Comparison.efficiency_score r) = true
  /\ (0 <= Comparison.total_sketch_bytes r ->
      not_negative (Comparison.sketch_size_kb r) = true).
Proof.
  cbv zeta.
  apply (derived_metrics_not_negative
           Examples.union_single Examples.exact_single).
  - intros u [<-|[]]. reflexivity.
  - intros e [<-|[]]. split; reflexivity.
  - left. reflexivity.
Defined.

End MetricFacts.

(** ** When the summary has no best row, and the pivot tables *)

Module SummaryEdge.
Import UnionPlot AggFacts JoinFacts SummaryFacts.

(** X8.  The lookups of the best configurations fail exactly when the
    column has no value to offer: [best_speed] has no row if and only if
    every [speedup_factor] of the table is NaN, which includes the empty
    table; likewise [best_accuracy] for [error_pct] and
    [best_efficiency] for [efficiency_score]. *)
Theorem best_row_missing_iff_all_nan (df : list Comparison.row) :
  (best_speed df = None
   <-> forall r, In r df -> F64.is_nan (Comparison.speedup_factor r) = true)
  /\ (best_accuracy df = None
      <-> forall r, In r df -> F64.is_nan (Comparison.error_pct r) = true)
  /\ (best_efficiency df = None
      <-> forall r, In r df ->
            F64.is_nan (Comparison.efficiency_score r) = true).
Proof.
  split; [|split].
  - apply (best_row_none_iff larger Pandas.ninf larger_cotrans larger_asym
             eq_refl).
  - apply (best_row_none_iff smaller F64.pinf smaller_cotrans smaller_asym
             eq_refl).
  - apply (best_row_none_iff larger Pandas.ninf larger_cotrans larger_asym
             eq_refl).
Qed.

Lemma has_duplicates_NoDup (ks : list (Z * Z)) :
  NoDup ks -> PlotData.has_duplicates ks = false.
Proof.
  induction 1 as [|k t Hnot Hnd IH]; simpl; [reflexivity|].
  rewrite IH, orb_false_r.
  destruct (existsb (pair_eqb k) t) eqn:E; [|reflexivity].
  apply existsb_exists in E. destruct E as [k' [Hin Hk']].
  apply pair_eqb_eq in Hk'. subst. contradiction.
Qed.

Lemma has_duplicates_dup (ks : list (Z * Z)) :
  PlotData.has_duplicates ks = false -> NoDup ks.
Proof.
  induction ks as [|k t IH]; simpl; intro H; [constructor|].
  apply orb_false_iff in H. destruct H as [H1 H2].
  constructor; [|auto].
  intro Hin.
  assert (existsb (pair_eqb k) t = true).
  { apply existsb_exists. exists k. split; [assumption|].
    apply pair_eqb_eq. reflexivity. }
  congruence.
Qed.

Lemma cell_of_row (values : Comparison.row -> F64.float64)
    (df : list Comparison.row) (r : Comparison.row) :
  NoDup (map Comparison.key df) -> In r df ->
  PlotData.cell values df (Comparison.precision r) (Comparison.num_days r)
  = values r.
Proof.
  intros Hnd Hr. unfold PlotData.cell.
  destruct (find (fun r0 => pair_eqb (Comparison.key r0)
                              (Comparison.precision r, Comparison.num_days r))
                 df) as [r'|] eqn:E.
  - apply find_some in E. destruct E as [Hr' Hk]. apply pair_eqb_eq in Hk.
    f_equal.
    apply (PipelineFacts.NoDup_map_eq Comparison.key df); assumption.
  - exfalso. apply (find_none _ _ E) in Hr.
    assert (pair_eqb (Comparison.key r)
              (Comparison.precision r, Comparison.num_days r) = true)
      by (apply pair_eqb_eq; reflexivity).
    congruence.
Qed.

Lemma cell_missing (values : Comparison.row -> F64.float64)
    (df : list Comparison.row) (p d : Z) :
  ~ In (p, d) (map Comparison.key df) ->
  PlotData.cell values df p d = F64.nan.
Proof.
  intro Hnot. unfold PlotData.cell.
  destruct (find (fun r0 => pair_eqb (Comparison.key r0) (p, d)) df)
    as [r'|] eqn:E; [|reflexivity].
  exfalso. apply find_some in E. destruct E as [Hr' Hk].
  apply pair_eqb_eq in Hk. apply Hnot. rewrite <- Hk. apply in_map.
  exact Hr'.
Qed.

(** X9.  [pivot] raises exactly when two rows of the table have the same
    precision and [num_days]; on [comparison_df] it therefore never
    raises.  The table it gives there has one line per precision, in
    ascending order, each with one cell per [num_days], in ascending
    order; the cell of a row's precision and [num_days] holds that row's
    value and a cell without a row holds NaN. *)
Theorem pivot_of_comparison_defined
    (values : Comparison.row -> F64.float64) :
  (forall df, PlotData.pivot values df = None
              <-> ~ NoDup (map Comparison.key df))
  /\ forall union_df exact_df,
       let df := comparison_df union_df exact_df in
       let index := Pandas.group_keys Comparison.precision Z.ltb Z.eqb df in
       let columns := Pandas.group_keys Comparison.num_days Z.ltb Z.eqb df in
       exists table,
         PlotData.pivot values df = Some table
         /\ map fst table = index
         /\ StronglySorted Z.lt index /\ StronglySorted Z.lt columns
         /\ (forall p line, In (p, line) table ->
               map fst line = columns
               /\ forall d v, In (d, v) line ->
                    (forall r, In r df -> Comparison.key r = (p, d) ->
                       v = values r)
                    /\ (~ In (p, d) (map Comparison.key df) -> v = F64.nan))
         /\ (forall r, In r df ->
               exists line,
                 In (Comparison.precision r, line) table
                 /\ In (Comparison.num_days r, values r) line).
Proof.
  split.
  - intro df. unfold PlotData.pivot.
    destruct (PlotData.has_duplicates (map Comparison.key df)) eqn:E.
    + split; [|reflexivity]. intros _ Hnd.
      rewrite (has_duplicates_NoDup _ Hnd) in E. discriminate.
    + split; [discriminate|]. intro H. exfalso. apply H.
      apply has_duplicates_dup. exact E.
  - intros union_df exact_df. cbv zeta.
    set (df := comparison_df union_df exact_df).
    assert (Hnd : NoDup (map Comparison.key df))
      by (apply (sorted_NoDup pair_lt pair_lt_irrefl),
            comparison_df_sorted).
    unfold PlotData.pivot. rewrite (has_duplicates_NoDup _ Hnd).
    eexists. split; [reflexivity|].
    split; [rewrite map_map; apply map_id|].
    split; [apply (group_keys_sorted Comparison.precision Z.ltb Z.eqb Z.lt
                     Z.ltb_lt Z.eqb_eq Z.lt_trans Z_lt_total)|].
    split; [apply (group_keys_sorted Comparison.num_days Z.ltb Z.eqb Z.lt
                     Z.ltb_lt Z.eqb_eq Z.lt_trans Z_lt_total)|].
    split.
    + intros p line Hin. apply in_map_iff in Hin.
      destruct Hin as [p' [Heq _]]. inversion Heq; subst p' line.
      split; [rewrite map_map; apply map_id|].
      intros d v Hv. apply in_map_iff in Hv.
      destruct Hv as [d' [Heq' _]]. inversion Heq'; subst d' v.
      split.
      * intros r Hr Hk. inversion Hk; subst p d.
        apply cell_of_row; assumption.
      * apply cell_missing.
    + intros r Hr. eexists. split.
      * apply in_map_iff. exists (Comparison.precision r).
        split; [reflexivity|].
        apply (group_keys_In Comparison.precision Z.ltb Z.eqb Z.eqb_eq).
        apply in_map. exact Hr.
      * apply in_map_iff. exists (Comparison.num_days r). split.
        -- f_equal. apply cell_of_row; assumption.
        -- apply (group_keys_In Comparison.num_days Z.ltb Z.eqb Z.eqb_eq).
           apply in_map. exact Hr.
Qed.

End SummaryEdge.

(** ** The two patterns of [parse_pgbench_summary] *)

Module PatternFacts.
Import PlotResults PgbenchText.
Open Scope list_scope.

Section Patterns.

Variable nd_value : N -> option N.

Lemma is_empty_false (s : text) : is_empty s = false <-> s <> [].
Proof. destruct s; simpl; split; congruence. Qed.

Lemma drop_prefix_spec (p s r : text) :
  drop_prefix p s = Some r <-> s = p ++ r.
Proof.
  revert s. induction p as [|a p IH]; intro s; simpl.
  - split; congruence.
  - destruct s as [|b s]; [split; discriminate|].
    destruct (a =? b)%N eqn:E.
    + apply N.eqb_eq in E. subst b. rewrite IH. split; congruence.
    + apply N.eqb_neq in E. split; [discriminate | congruence].
Qed.

Lemma span_digits_spec (s ds rest : text) :
  span_digits nd_value s = (ds, rest) ->
  s = ds ++ rest /\ all_digits nd_value ds = true
  /\ stops_digits nd_value rest.
Proof.
  revert ds rest. induction s as [|c s IH]; intros ds rest H; simpl in H.
  - inversion H; subst. repeat split.
  - destruct (is_digit nd_value c) eqn:E.
    + destruct (span_digits nd_value s) as [ds' rest'].
      inversion H; subst. destruct (IH ds' rest eq_refl) as [-> [Hd Hr]].
      unfold all_digits in *. simpl. rewrite E, Hd. repeat split. exact Hr.
    + inversion H; subst. simpl. repeat split. exact E.
Qed.

Lemma span_digits_run (ds t : text) :
  all_digits nd_value ds = true -> stops_digits nd_value t ->
  span_digits nd_value (ds ++ t) = (ds, t).
Proof.
  unfold all_digits. intros Hd Ht. induction ds as [|c ds IH]; simpl in *.
  - destruct t as [|c t]; [reflexivity|]. simpl in *. rewrite Ht.
    reflexivity.
  - apply andb_true_iff in Hd. destruct Hd as [Hc Hd].
    rewrite Hc, (IH Hd). reflexivity.
Qed.

Lemma match_here_sound (before after s g : text) :
  match_here nd_value before after s = Some g ->
  exists int_part frac_part post,
    s = before ++ int_part ++ dot :: frac_part ++ after ++ post
    /\ digits nd_value int_part /\ digits nd_value frac_part
    /\ g = int_part ++ dot :: frac_part.
Proof.
  unfold match_here.
  destruct (drop_prefix before s) as [s1|] eqn:E0; [|discriminate].
  apply drop_prefix_spec in E0.
  destruct (span_digits nd_value s1) as [int_part s2] eqn:E1.
  apply span_digits_spec in E1. destruct E1 as [-> [Hi _]].
  destruct (is_empty int_part) eqn:Ei; [discriminate|].
  apply is_empty_false in Ei.
  destruct s2 as [|c s3]; [discriminate|].
  destruct (c =? dot)%N eqn:Ec; [|discriminate].
  apply N.eqb_eq in Ec. subst c.
  destruct (span_digits nd_value s3) as [frac_part s4] eqn:E2.
  apply span_digits_spec in E2. destruct E2 as [-> [Hf _]].
  destruct (is_empty frac_part) eqn:Ef; [discriminate|].
  apply is_empty_false in Ef.
  destruct (drop_prefix after s4) as [post|] eqn:E3; [|discriminate].
  apply drop_prefix_spec in E3. subst s4.
  intro H. inversion H; subst g.
  exists int_part, frac_part, post. subst s. repeat split; assumption.
Qed.

Lemma match_here_complete (before after int_part frac_part post : text) :
  digits nd_value int_part -> digits nd_value frac_part ->
  stops_digits nd_value (after ++ post) ->
  match_here nd_value before after
    (before ++ int_part ++ dot :: frac_part ++ after ++ post)
  = Some (int_part ++ dot :: frac_part).
Proof.
  intros [Hi Hin] [Hf Hfn] Hstop. unfold match_here.
  rewrite (proj2 (drop_prefix_spec before _ _) eq_refl).
  rewrite (span_digits_run int_part _ Hi) by reflexivity.
  rewrite (proj2 (is_empty_false int_part) Hin).
  rewrite N.eqb_refl.
  rewrite (span_digits_run frac_part _ Hf Hstop).
  rewrite (proj2 (is_empty_false frac_part) Hfn).
  rewrite (proj2 (drop_prefix_spec after _ _) eq_refl).
  reflexivity.
Qed.

Lemma re_search_sound (before after s g : text) :
  re_search nd_value before after s = Some g ->
  occurs nd_value before after s g.
Proof.
  induction s as [|c s IH]; simpl.
  - destruct (match_here nd_value before after []) as [g'|] eqn:E;
      [|discriminate].
    intro H. inversion H; subst g'.
    apply match_here_sound in E.
    destruct E as [ip [fp [post [Hs [Hi [Hf Hg]]]]]].
    exists [], ip, fp, post. auto.
  - destruct (match_here nd_value before after (c :: s)) as [g'|] eqn:E.
    + intro H. inversion H; subst g'.
      apply match_here_sound in E.
      destruct E as [ip [fp [post [Hs [Hi [Hf Hg]]]]]].
      exists [], ip, fp, post. auto.
    + intro H. destruct (IH H) as [pre [ip [fp [post [Hs [Hi [Hf Hg]]]]]]].
      exists (c :: pre), ip, fp, post.
      split; [rewrite Hs; reflexivity | auto].
Qed.

Lemma re_search_here (before after s g : text) :
  match_here nd_value before after s = Some g ->
  re_search nd_value before after s = Some g.
Proof. intro H. destruct s; simpl; rewrite H; reflexivity. Qed.

Lemma re_search_complete (before after s g : text) :
  (forall post, stops_digits nd_value (after ++ post)) ->
  occurs nd_value before after s g ->
  exists g', re_search nd_value before after s = Some g'.
Proof.
  intros Hstop [pre [ip [fp [post [Hs [Hi [Hf _]]]]]]]. subst s.
  induction pre as [|c pre IH].
  - exists (ip ++ dot :: fp). apply re_search_here.
    apply (match_here_complete before after ip fp post Hi Hf (Hstop post)).
  - simpl.
    destruct (match_here nd_value before after
                (c :: pre ++ before ++ ip ++ dot :: fp ++ after ++ post));
      [eauto | exact IH].
Qed.

Lemma tps_after_stops (post : text) :
  stops_digits nd_value (tps_after ++ post).
Proof. reflexivity. Qed.

Lemma lat_after_stops (post : text) :
  stops_digits nd_value (lat_after ++ post).
Proof. reflexivity. Qed.

End Patterns.

End PatternFacts.

(** ** Further properties of plot_results.py *)

Module ResultsFacts.
Import PlotResults PgbenchText PatternFacts.
Open Scope list_scope.

Section Figures.

Variable nd_value : N -> option N.

(** X10.  Whatever the digits of the Unicode database are, on a file that
    can be read [parse_pgbench_summary] returns a dictionary exactly when
    the text holds ["tps = "], a figure of digits, a full stop and digits,
    and [" (excluding"] one after the other, and likewise
    ["latency average = "], a figure and [" ms"]; the two values of the
    dictionary are then the floats of two figures that occur in this
    way. *)
Theorem parse_succeeds_iff_both_figures
    (base_path : directory) (filename : string) (content : text) :
  base_path filename = Text content ->
  ((exists dict,
      parse_pgbench_summary nd_value base_path filename = Some dict)
   <-> (exists t, occurs nd_value tps_before tps_after content t)
       /\ (exists l, occurs nd_value lat_before lat_after content l))
  /\ (forall dict,
        parse_pgbench_summary nd_value base_path filename = Some dict ->
        exists t l tps latency,
          occurs nd_value tps_before tps_after content t
          /\ occurs nd_value lat_before lat_after content l
          /\ py_float nd_value t = Some tps
          /\ py_float nd_value l = Some latency
          /\ dict = [("tps"%string, tps); ("latency"%string, latency)]).
Proof.
  intro Hf. unfold parse_pgbench_summary. rewrite Hf.
  destruct (re_search nd_value tps_before tps_after content)
    as [t|] eqn:Et.
  - destruct (re_search nd_value lat_before lat_after content)
      as [l|] eqn:El.
    + destruct (Ingestion.re_search_py_float _ _ _ _ _ Et) as [tps Htps].
      destruct (Ingestion.re_search_py_float _ _ _ _ _ El) as [lat Hlat].
      rewrite Htps, Hlat. split.
      * split; [|eauto]. intros _. split.
        -- exists t. apply re_search_sound. exact Et.
        -- exists l. apply re_search_sound. exact El.
      * intros dict H. inversion H; subst dict.
        exists t, l, tps, lat.
        repeat split; auto using re_search_sound.
    + split; [|discriminate]. split.
      * intros [dict H]. discriminate H.
      * intros [_ [l Hl]].
        destruct (re_search_complete nd_value _ _ _ _
                    (lat_after_stops nd_value) Hl) as [g Hg].
        congruence.
  - split; [|discriminate]. split.
    + intros [dict H]. discriminate H.
    + intros [[t Ht] _].
      destruct (re_search_complete nd_value _ _ _ _
                  (tps_after_stops nd_value) Ht) as [g Hg].
      congruence.
Qed.

End Figures.

Lemma parse_succeeds_iff_both_figures_witness :
  exists dict,
    parse_pgbench_summary Examples.arabic_indic
      (Examples.results_with Examples.summary_arabic_indic)
      Examples.summary_name = Some dict.
Proof.
  apply (proj1 (parse_succeeds_iff_both_figures Examples.arabic_indic
                  (Examples.results_with Examples.summary_arabic_indic)
                  Examples.summary_name Examples.summary_arabic_indic
                  eq_refl)).
  split.
  - exists [1635%N; 46%N; 1637%N].
    exists (of_string "latency average = 1.0 ms "),
           [1635%N], [1637%N],
           (of_string " connections establishing)").
    repeat split; discriminate.
  - exists (of_string "1.0").
    exists [], (of_string "1"), (of_string "0"),
           (of_string " tps = " ++ [1635%N; 46%N; 1637%N]
            ++ of_string " (excluding connections establishing)").
    repeat split; discriminate.
Defined.

Section MainOutputs.

Variable DataFrame : Type.
Variable read_csv : text -> option DataFrame.
Variable nd_value : N -> option N.
Variable render : rendering DataFrame.

Lemma bulk_done (e h : option DataFrame) (files : list string) :
  plot_bulk_agg DataFrame render e h = Done files ->
  (files = ["1_bulk_agg_speed.png"%string; "2_bulk_agg_error.png"%string]
   /\ (exists de, e = Some de) /\ (exists dh, h = Some dh))
  \/ (files = [] /\ (e = None \/ h = None)).
Proof.
  unfold plot_bulk_agg, image. destruct e as [e|], h as [h|];
    try (intro H; inversion H; right; auto; fail).
  destruct (bulk_speed_ok DataFrame render e h);
    destruct (bulk_error_ok DataFrame render e h); simpl;
    try discriminate.
  intro H. inversion H. left. eauto.
Qed.

Lemma storage_done (s : option DataFrame) (files : list string) :
  plot_storage DataFrame render s = Done files ->
  (files = ["3_storage_footprint.png"%string] /\ exists d, s = Some d)
  \/ (files = [] /\ s = None).
Proof.
  unfold plot_storage, image. destruct s as [s|].
  - destruct (storage_ok DataFrame render s); [|discriminate].
    intro H. inversion H. left. eauto.
  - intro H. inversion H. right. auto.
Qed.

Lemma hashing_done (h : option DataFrame) (files : list string) :
  plot_hashing DataFrame render h = Done files ->
  (files = ["4_hashing_overhead.png"%string] /\ exists d, h = Some d)
  \/ (files = [] /\ h = None).
Proof.
  unfold plot_hashing, image. destruct h as [h|].
  - destruct (hashing_ok DataFrame render h); [|discriminate].
    intro H. inversion H. left. eauto.
  - intro H. inversion H. right. auto.
Qed.

Lemma pgbench_done
    (data : list (string * list (string * F64.float64)))
    (files : list string) :
  plot_pgbench_results DataFrame render data = Done files ->
  files
  = (if existsb (fun t => contains "insert" (fst t)) data
     then ["5_insert_tps.png"%string] else [])
    ++ (if existsb (fun t => contains "read" (fst t)) data
        then ["6_read_latency.png"%string] else []).
Proof.
  unfold plot_pgbench_results, image. destruct data as [|d t].
  - intro H. inversion H. reflexivity.
  - destruct (existsb (fun t0 => contains "insert" (fst t0)) (d :: t));
      destruct (existsb (fun t0 => contains "read" (fst t0)) (d :: t));
      try destruct (insert_tps_ok DataFrame render (d :: t));
      try destruct (read_latency_ok DataFrame render (d :: t));
      simpl; intro H; inversion H; reflexivity.
Qed.

Lemma tests_parsed (input_path : directory) :
  (existsb (fun t => contains "insert" (fst t))
     (pgbench_results nd_value input_path) = true
   <-> (exists d, parse_pgbench_summary nd_value input_path
                    "04_summary_low_card_insert.txt" = Some d)
       \/ (exists d, parse_pgbench_summary nd_value input_path
                       "05_summary_high_card_insert.txt" = Some d))
  /\ (existsb (fun t => contains "read" (fst t))
        (pgbench_results nd_value input_path) = true
      <-> (exists d, parse_pgbench_summary nd_value input_path
                       "06_summary_read_cardinality.txt" = Some d)
          \/ (exists d, parse_pgbench_summary nd_value input_path
                          "07_summary_read_union.txt" = Some d)).
Proof.
  unfold pgbench_results, test_files.
  cbn [flat_map fst snd].
  destruct (parse_pgbench_summary nd_value input_path
              "04_summary_low_card_insert.txt");
    destruct (parse_pgbench_summary nd_value input_path
                "05_summary_high_card_insert.txt");
    destruct (parse_pgbench_summary nd_value input_path
                "06_summary_read_cardinality.txt");
    destruct (parse_pgbench_summary nd_value input_path
                "07_summary_read_union.txt");
    cbn; split; split; intro H;
    try discriminate H; eauto;
    destruct H as [[? H]|[? H]]; discriminate H.
Qed.

(** X11.  A run of [main] in which no plotting step raises has saved the
    two bulk aggregation plots exactly when both bulk files load, the
    storage plot exactly when the storage results load, the hashing plot
    exactly when the hashing results load, the insert throughput plot
    exactly when at least one of the two insert summaries is parsed, and
    the read latency plot exactly when at least one of the two read
    summaries is parsed. *)
Theorem main_saves_per_available_input
    (input_path : directory) (saved : list string) :
  main DataFrame read_csv nd_value render input_path = Done saved ->
  let loads f := exists df, load_data DataFrame read_csv input_path f
                            = Some df in
  let parses f :=
    exists d, parse_pgbench_summary nd_value input_path f = Some d in
  (In "1_bulk_agg_speed.png"%string saved
   <-> loads "01_results_bulk_exact.csv"%string
       /\ loads "01_results_bulk_hll.csv"%string)
  /\ (In "2_bulk_agg_error.png"%string saved
      <-> loads "01_results_bulk_exact.csv"%string
          /\ loads "01_results_bulk_hll.csv"%string)
  /\ (In "3_storage_footprint.png"%string saved
      <-> loads "02_results_storage.csv"%string)
  /\ (In "4_hashing_overhead.png"%string saved
      <-> loads "03_results_hashing.csv"%string)
  /\ (In "5_insert_tps.png"%string saved
      <-> parses "04_summary_low_card_insert.txt"%string
          \/ parses "05_summary_high_card_insert.txt"%string)
  /\ (In "6_read_latency.png"%string saved
      <-> parses "06_summary_read_cardinality.txt"%string
          \/ parses "07_summary_read_union.txt"%string).
Proof.
  unfold main. intro Hmain. cbv zeta.
  apply Ingestion.and_then_Done in Hmain.
  destruct Hmain as [lb [rest1 [Hb [Hmain ->]]]].
  apply Ingestion.and_then_Done in Hmain.
  destruct Hmain as [ls [rest2 [Hs [Hmain ->]]]].
  apply Ingestion.and_then_Done in Hmain.
  destruct Hmain as [lh [lp [Hh [Hp ->]]]].
  apply bulk_done in Hb. apply storage_done in Hs.
  apply hashing_done in Hh. apply pgbench_done in Hp.
  destruct (tests_parsed input_path) as [Hins Hread].
  rewrite <- Hins, <- Hread. clear Hins Hread.
  destruct (existsb (fun t => contains "insert" (fst t))
              (pgbench_results nd_value input_path));
    destruct (existsb (fun t => contains "read" (fst t))
                (pgbench_results nd_value input_path));
    subst lp;
    destruct Hb as [[-> [He Hl]]|[-> Hb]];
    destruct Hs as [[-> Hs]|[-> Hs]];
    destruct Hh as [[-> Hh]|[-> Hh]];
    simpl;
    (split; [|split; [|split; [|split; [|split]]]]);
    (split; intro H);
    repeat match goal with
           | H : _ \/ _ |- _ => destruct H as [H|H]
           | H : _ /\ _ |- _ => destruct H
           | H : False |- _ => contradiction
           | H : exists _, _ |- _ => destruct H
           | H : @eq string _ _ |- _ => discriminate H
           | H : @eq bool _ _ |- _ => discriminate H
           | H : @eq (option _) _ _ |- _ => congruence
           end;
    eauto 10.
Qed.

End MainOutputs.

Lemma main_saves_per_available_input_witness :
  In "3_storage_footprint.png"%string
     ["1_bulk_agg_speed.png"%string; "2_bulk_agg_error.png"%string;
      "3_storage_footprint.png"%string]
  <-> exists df,
        load_data unit Examples.read_any Examples.results_without_hashing
          "02_results_storage.csv" = Some df.
Proof.
  apply (main_saves_per_available_input unit Examples.read_any
           Examples.arabic_indic Examples.render_all
           Examples.results_without_hashing
           ["1_bulk_agg_speed.png"%string; "2_bulk_agg_error.png"%string;
            "3_storage_footprint.png"%string]
           eq_refl).
Defined.

End ResultsFacts.

(** ** plot_results_cardinality.py: the scatter plot *)

Module ScatterFacts.
Import CardinalityPlots.

Lemma colors_beyond (i : nat) : (3 <= i)%nat -> nth_error colors i = None.
Proof. intro H. apply nth_error_None. simpl. lia. Qed.

Lemma colors_within (i : nat) :
  (i < 3)%nat -> exists c, nth_error colors i = Some c.
Proof.
  intro H. destruct (nth_error colors i) as [c|] eqn:E; [eauto|].
  apply nth_error_None in E. simpl in E. lia.
Qed.

Lemma scatter_raises (rows : list summary_row) (i : nat) :
  rows <> [] -> (3 < i + List.length rows)%nat -> scatter i rows = None.
Proof.
  revert i. induction rows as [|row t IH]; intros i Hne Hlen;
    [congruence|].
  simpl. destruct (nth_error colors i) as [c|] eqn:E; [|reflexivity].
  assert (Hi : (i < 3)%nat).
  { destruct (Nat.lt_ge_cases i 3) as [H|H]; [exact H|].
    rewrite (colors_beyond i H) in E. discriminate. }
  destruct t as [|row' t'].
  - simpl in Hlen. lia.
  - rewrite IH; [reflexivity | discriminate | simpl in *; lia].
Qed.

Lemma scatter_draws (rows : list summary_row) (i : nat) :
  (i + List.length rows <= 3)%nat ->
  exists ps,
    scatter i rows = Some ps
    /\ map drawn ps = rows
    /\ map color ps = firstn (List.length rows) (skipn i colors).
Proof.
  revert i. induction rows as [|row t IH]; intros i Hlen.
  - exists []. repeat split.
  - simpl in Hlen.
    destruct (colors_within i ltac:(lia)) as [c Hc].
    destruct (IH (S i) ltac:(simpl; lia)) as [ps [Hps [Hd Hcol]]].
    exists (mk_point c row :: ps). simpl. rewrite Hc, Hps.
    split; [reflexivity|]. split; [simpl; congruence|].
    simpl. rewrite Hcol.
    destruct i as [|[|[|i]]]; simpl in *; try lia;
      inversion Hc; reflexivity.
Qed.

(** X12.  [plot_speedup_vs_error] has a colour for three precisions only.
    It raises (the lookup [colors[i]]) exactly when the table has more
    than three distinct precisions.  Otherwise it draws one point per
    distinct precision, in ascending order of precision and with the
    colours in their listed order; the speedup of a point is the mean
    duration of all exact runs divided by the mean duration of the runs
    of that precision. *)
Theorem speedup_plot_needs_at_most_three_precisions
    (exact_df : list ExactCountDf.row) (hll_df : list HllDf.row) :
  let precisions := Pandas.group_keys HllDf.precision Z.ltb Z.eqb hll_df in
  let exact_mean := Pandas.mean (map ExactCountDf.duration_ms exact_df) in
  (NoDup precisions
   /\ forall p, In p precisions <-> In p (map HllDf.precision hll_df))
  /\ (plot_speedup_vs_error exact_df hll_df = None
      <-> (3 < List.length precisions)%nat)
  /\ ((List.length precisions <= 3)%nat ->
      exists ps,
        plot_speedup_vs_error exact_df hll_df = Some ps
        /\ map (fun pt => precision (drawn pt)) ps = precisions
        /\ map color ps = firstn (List.length precisions) colors
        /\ forall pt, In pt ps ->
             speedup (drawn pt)
             = F64.div exact_mean
                 (Pandas.mean
                    (map HllDf.duration_ms
                       (Pandas.group_rows HllDf.precision Z.eqb hll_df
                          (precision (drawn pt)))))).
Proof.
  cbv zeta.
  set (exact_mean := Pandas.mean (map ExactCountDf.duration_ms exact_df)).
  assert (Hkeys : map precision (summary exact_mean hll_df)
                  = Pandas.group_keys HllDf.precision Z.ltb Z.eqb hll_df).
  { unfold summary. rewrite map_map. simpl.
    rewrite <- (groupby_keys HllDf.precision Z.ltb Z.eqb).
    reflexivity. }
  assert (Hlen : List.length (summary exact_mean hll_df)
                 = List.length
                     (Pandas.group_keys HllDf.precision Z.ltb Z.eqb hll_df))
    by (rewrite <- Hkeys, length_map; reflexivity).
  split; [split|split].
  - apply (sorted_NoDup Z.lt Z.lt_irrefl).
    apply (group_keys_sorted HllDf.precision Z.ltb Z.eqb Z.lt
             Z.ltb_lt Z.eqb_eq Z.lt_trans AggFacts.Z_lt_total).
  - apply (group_keys_In HllDf.precision Z.ltb Z.eqb Z.eqb_eq).
  - unfold plot_speedup_vs_error. fold exact_mean. rewrite <- Hlen. split.
    + intro Hnone.
      destruct (Nat.lt_ge_cases 3 (List.length (summary exact_mean hll_df)))
        as [H|H]; [exact H|].
      destruct (scatter_draws (summary exact_mean hll_df) O H)
        as [ps [Hps _]].
      congruence.
    + intro H. apply scatter_raises; [|exact H].
      intro Hnil. rewrite Hnil in H. simpl in H. lia.
  - intro Hle. rewrite <- Hlen in Hle.
    destruct (scatter_draws (summary exact_mean hll_df) O Hle)
      as [ps [Hps [Hd Hcol]]].
    exists ps. unfold plot_speedup_vs_error. fold exact_mean.
    split; [exact Hps|]. split; [|split].
    + rewrite <- Hkeys, <- Hd, map_map. reflexivity.
    + rewrite <- Hlen. exact Hcol.
    + intros pt Hpt.
      assert (Hin : In (drawn pt) (summary exact_mean hll_df))
        by (rewrite <- Hd; apply in_map; exact Hpt).
      unfold summary in Hin. apply in_map_iff in Hin.
      destruct Hin as [g [Hg Hgin]].
      apply (groupby_In HllDf.precision Z.ltb Z.eqb Z.eqb_eq) in Hgin.
      destruct Hgin as [_ Hrows]. rewrite <- Hg. simpl.
      rewrite Hrows. reflexivity.
Qed.

Lemma speedup_plot_needs_at_most_three_precisions_witness :
  exists ps,
    plot_speedup_vs_error
      [ExactCountDf.mk (F64.of_Z 9985) (F64.of_decimal 253 1)]
      [HllDf.mk 12 (F64.of_Z 10012) (F64.of_decimal 27 2)
         (F64.of_decimal 73 2) (F64.of_Z 5120);
       HllDf.mk 10 (F64.of_Z 9923) (F64.of_decimal 62 2)
         (F64.of_decimal 52 2) (F64.of_Z 1280)]
    = Some ps
    /\ map (fun pt => precision (drawn pt)) ps = [10; 12].
Proof.
  destruct (proj2 (proj2 (speedup_plot_needs_at_most_three_precisions
              [ExactCountDf.mk (F64.of_Z 9985) (F64.of_decimal 253 1)]
              [HllDf.mk 12 (F64.of_Z 10012) (F64.of_decimal 27 2)
                 (F64.of_decimal 73 2) (F64.of_Z 5120);
               HllDf.mk 10 (F64.of_Z 9923) (F64.of_decimal 62 2)
                 (F64.of_decimal 52 2) (F64.of_Z 1280)]))
             ltac:(simpl; lia)) as [ps [Hps [Hk _]]].
  exists ps. split; [exact Hps | exact Hk].
Defined.

End ScatterFacts.

(** ** union_plot.py: the x values of the exact scaling plot *)

Module DaysFacts.
Import PlotData.

Lemma unique_from (xs seen : list Z) :
  NoDup seen ->
  let out := fold_left (fun seen x => if existsb (Z.eqb x) seen then seen
                                      else seen ++ [x]) xs seen in
  NoDup out /\ forall x, In x out <-> In x seen \/ In x xs.
Proof.
  revert seen. induction xs as [|a t IH]; intros seen Hnd; simpl.
  - split; [exact Hnd | tauto].
  - destruct (existsb (Z.eqb a) seen) eqn:E.
    + destruct (IH seen Hnd) as [H1 H2]. split; [exact H1|].
      intro x. rewrite H2. apply JoinFacts.existsb_eqb_In in E.
      intuition (subst; auto).
    + assert (Hnot : ~ In a seen).
      { intro H. apply JoinFacts.existsb_eqb_In in H. congruence. }
      assert (Hnd' : NoDup (seen ++ [a])).
      { apply NoDup_app; [exact Hnd | repeat constructor; intros [] |].
        intros x Hx [<-|[]]. contradiction. }
      destruct (IH (seen ++ [a]) Hnd') as [H1 H2]. split; [exact H1|].
      intro x. rewrite H2, in_app_iff. simpl. tauto.
Qed.

Lemma insert_sorted_In (x y : Z) (l : list Z) :
  In y (insert_sorted x l) <-> y = x \/ In y l.
Proof.
  induction l as [|a t IH]; simpl; [intuition|].
  destruct (x <=? a); simpl; [intuition|]. rewrite IH. intuition.
Qed.

Lemma insert_sorted_strict (x : Z) (l : list Z) :
  StronglySorted Z.lt l -> ~ In x l ->
  StronglySorted Z.lt (insert_sorted x l).
Proof.
  induction 1 as [|a t Hs IH Hall]; intro Hnot; simpl.
  - repeat constructor.
  - simpl in Hnot. rewrite Forall_forall in Hall.
    destruct (x <=? a) eqn:E.
    + apply Z.leb_le in E. assert (x < a) by lia.
      constructor; [constructor; [assumption | apply Forall_forall; auto]|].
      constructor; [assumption|]. apply Forall_forall.
      intros y Hy. specialize (Hall y Hy). lia.
    + apply Z.leb_gt in E.
      constructor; [apply IH; tauto|]. apply Forall_forall.
      intros y Hy. apply insert_sorted_In in Hy.
      destruct Hy as [->|Hy]; [assumption | auto].
Qed.

Lemma sorted_strict (l : list Z) :
  NoDup l ->
  StronglySorted Z.lt (sorted l) /\ forall x, In x (sorted l) <-> In x l.
Proof.
  induction 1 as [|a t Hnot Hnd [IH1 IH2]]; simpl.
  - split; [constructor | tauto].
  - split.
    + apply insert_sorted_strict; [exact IH1|]. rewrite IH2. exact Hnot.
    + intro x. rewrite insert_sorted_In, IH2. intuition.
Qed.

(** X13.  The x values of the exact scaling plot,
    [sorted(exact_df['num_days'].unique())], are the index of
    [exact_by_days] and the [num_days] column of [exact_stats], entry by
    entry: the plot pairs every window with the mean and the standard
    deviation of the query times of that window's own trials. *)
Theorem days_match_exact_by_days (exact_df : list ExactDf.row) :
  days exact_df = map fst (exact_by_days exact_df)
  /\ days exact_df
     = map ExactStats.num_days (UnionPlot.exact_stats exact_df)
  /\ forall i d, nth_error (days exact_df) i = Some d ->
       nth_error (exact_by_days exact_df) i
       = Some (d, (Pandas.mean (map ExactDf.query_time_ms
                                  (UnionPlot.exact_group exact_df d)),
                   Pandas.std (map ExactDf.query_time_ms
                                 (UnionPlot.exact_group exact_df d)))).
Proof.
  assert (Hidx : map fst (exact_by_days exact_df)
                 = Pandas.group_keys ExactDf.num_days Z.ltb Z.eqb exact_df).
  { unfold exact_by_days. rewrite map_map. simpl.
    apply (groupby_keys ExactDf.num_days Z.ltb Z.eqb). }
  assert (Hdays : days exact_df
                  = Pandas.group_keys ExactDf.num_days Z.ltb Z.eqb exact_df).
  { unfold days, unique.
    destruct (unique_from (map ExactDf.num_days exact_df) [] (NoDup_nil Z))
      as [Hnd Hmem].
    destruct (sorted_strict _ Hnd) as [Hs Hin].
    apply (sorted_same_members Z.lt Z.lt_irrefl Z.lt_trans); [exact Hs| |].
    - apply (group_keys_sorted ExactDf.num_days Z.ltb Z.eqb Z.lt
               Z.ltb_lt Z.eqb_eq Z.lt_trans AggFacts.Z_lt_total).
    - intro x. rewrite Hin, Hmem.
      rewrite (group_keys_In ExactDf.num_days Z.ltb Z.eqb Z.eqb_eq).
      simpl. tauto. }
  split; [congruence|]. split.
  - rewrite AggFacts.exact_stats_keys. exact Hdays.
  - intros i d Hi. rewrite Hdays in Hi. unfold exact_by_days, Pandas.groupby.
    rewrite map_map.
    etransitivity; [apply (map_nth_error _ _ _ Hi) | reflexivity].
Qed.

End DaysFacts.

(** ** The standard deviation columns *)

Module StdFacts.
Import UnionPlot AggFacts Sign SignFacts.

Lemma mul_self_not_negative (d : F64.float64) :
  not_negative (F64.mul d d) = true.
Proof.
  unfold not_negative.
  destruct d as [[|]|[|]| |[|] m e]; try reflexivity;
    unfold F64.mul, SFmul; simpl xorb;
    rewrite RoundFacts.binary_round_aux_nonneg by lia;
    apply orb_true_r.
Qed.

Lemma sqrt_core_nonneg (m : positive) (e : Z) :
  0 <= fst (fst (SFsqrt_core_binary F64.prec F64.emax (Zpos m) e)).
Proof.
  unfold SFsqrt_core_binary.
  set (s := e - 2 * Z.min _ _).
  set (m' := match s with Z0 => _ | Zpos _ => _ | Zneg _ => _ end).
  assert (Hm : 0 <= m').
  { subst m'. destruct s; [lia | apply Z.shiftl_nonneg; lia | lia]. }
  pose proof (Z.sqrtrem_spec m' Hm) as H.
  destruct (Z.sqrtrem m') as [q r]. simpl. lia.
Qed.

Lemma sqrt_not_negative (x : F64.float64) :
  not_negative x = true -> not_negative (F64.sqrt x) = true.
Proof.
  unfold not_negative.
  destruct x as [[|]|[|]| |[|] m e]; simpl; try discriminate;
    try reflexivity.
  intros _. unfold F64.sqrt, SFsqrt.
  pose proof (sqrt_core_nonneg m e) as H.
  destruct (SFsqrt_core_binary F64.prec F64.emax (Zpos m) e)
    as [[mz ez] lz].
  simpl in H. rewrite (RoundFacts.binary_round_aux_nonneg mz ez lz H).
  apply orb_true_r.
Qed.

Lemma std_not_negative (xs : list F64.float64) :
  not_negative (Pandas.std xs) = true.
Proof.
  unfold Pandas.std. destruct (Pandas.count xs <=? 1) eqn:E;
    [reflexivity|].
  apply Z.leb_gt in E.
  apply sqrt_not_negative, div_not_negative.
  - apply sum_not_negative; [reflexivity|]. rewrite Forall_forall.
    intros v Hv. apply in_map_iff in Hv. destruct Hv as [x [<- _]].
    apply mul_self_not_negative.
  - apply nonneg_not_negative, of_Z_nonneg. lia.
Qed.

(** X14.  A standard deviation of the aggregated tables is never a
    negative number: for every trial table, whatever its values, each
    [union_stddev_ms] and each [exact_stddev_ms] is NaN, zero, positive
    or [+inf]. *)
Theorem stddev_columns_not_negative
    (union_df : list UnionDf.row) (exact_df : list ExactDf.row) :
  Forall (fun r => not_negative (UnionStats.union_stddev_ms r) = true)
         (union_stats union_df)
  /\ Forall (fun r => not_negative (ExactStats.exact_stddev_ms r) = true)
            (exact_stats exact_df).
Proof.
  split; apply Forall_forall; intros r Hr.
  - apply union_stats_In in Hr. destruct Hr as [_ ->]. simpl.
    apply std_not_negative.
  - apply exact_stats_In in Hr. destruct Hr as [_ ->]. simpl.
    apply std_not_negative.
Qed.

End StdFacts.
